(** * Ifasr_new.py: the LFASR transcription client

    A shallow embedding of [LFASRClient] (signature generation, upload,
    the result-polling loop, transcript extraction) and of the
    [ERROR_CODES] table, with the properties the specification states
    about them.

    Conventions of the embedding.
    - A Python [str] is a Rocq [string] holding its UTF-8 encoding, so
      [s.encode('utf-8')] is the byte sequence of the string and [+] is
      [++].
    - Values decoded from JSON are [pyval]s; a JSON number is an integer
      (the service declares [code] and [status] as integers).
    - A Python computation that may raise is a value of [res]; the
      statements of a [try] body are sequenced with [x <- e ;; k] and an
      [except] clause is a match on the outcome.
    - The outside world is passed explicitly: the clock reading of
      [time.time()], the file system, and the replies of the HTTP
      service as a script consumed in order. *)

From Stdlib Require Import ZArith List String Ascii Bool Lia.
From Stdlib Require Import DecimalString DecimalZ DecimalPos.
Import ListNotations.
Set Warnings "-register-all".
Local Open Scope string_scope.
Local Open Scope list_scope.
Local Open Scope Z_scope.

(** ** Python values and exceptions *)

Inductive pyval : Type :=
| PNone
| PBool (b : bool)
| PInt (n : Z)
| PStr (s : string)
| PList (items : list pyval)
| PDict (entries : list (string * pyval)).

(** The exception classes the client raises or meets, all of them
    subclasses of [Exception]. *)
Inductive exc_class : Type :=
| Exception_
| FileNotFoundError_
| TimeoutError_
| KeyError_
| TypeError_
| AttributeError_
| JSONDecodeError_
| RequestException_.

Record pyexc : Type := Exc { exc_cls : exc_class; exc_msg : string }.

Inductive res (A : Type) : Type :=
| Ok (a : A)
| Raise (e : pyexc).
Arguments Ok {A} a.
Arguments Raise {A} e.

Definition bind {A B : Type} (m : res A) (k : A -> res B) : res B :=
  match m with
  | Ok a => k a
  | Raise e => Raise e
  end.

Notation "x <- m ;; k" := (bind m (fun x => k))
  (at level 61, m at next level, right associativity).

(** ** The operations of Python used by the client *)

Fixpoint assoc (k : string) (entries : list (string * pyval)) : option pyval :=
  match entries with
  | [] => None
  | (k', v) :: rest => if String.eqb k k' then Some v else assoc k rest
  end.

(** [x[k]] for a string key [k]. *)
Definition py_getitem (x : pyval) (k : string) : res pyval :=
  match x with
  | PDict entries =>
      match assoc k entries with
      | Some v => Ok v
      | None => Raise (Exc KeyError_ k)
      end
  | PList _ => Raise (Exc TypeError_ "list indices must be integers or slices, not str")
  | PStr _ => Raise (Exc TypeError_ "string indices must be integers")
  | _ => Raise (Exc TypeError_ "object is not subscriptable")
  end.

(** [x.get(k, default)]: only a dict has the method. *)
Definition py_get (x : pyval) (k : string) (default : pyval) : res pyval :=
  match x with
  | PDict entries =>
      match assoc k entries with
      | Some v => Ok v
      | None => Ok default
      end
  | _ => Raise (Exc AttributeError_ "object has no attribute 'get'")
  end.

(** [x == n] for an integer literal [n]; [True] and [False] compare as
    1 and 0, every other kind of value is different from an integer. *)
Definition py_eq_int (x : pyval) (n : Z) : bool :=
  match x with
  | PInt m => m =? n
  | PBool b => (if b then 1 else 0) =? n
  | _ => false
  end.

(** [x in (a, b, c)] on a tuple of integer literals. *)
Definition py_in_ints (x : pyval) (ns : list Z) : bool :=
  existsb (py_eq_int x) ns.

Fixpoint is_prefix (p s : string) : bool :=
  match p, s with
  | EmptyString, _ => true
  | String a p', String b s' => Ascii.eqb a b && is_prefix p' s'
  | String _ _, EmptyString => false
  end.

Fixpoint is_substring (p s : string) : bool :=
  is_prefix p s ||
  match s with
  | EmptyString => false
  | String _ s' => is_substring p s'
  end.

Definition py_eq_str (x : pyval) (k : string) : bool :=
  match x with
  | PStr s => String.eqb s k
  | _ => false
  end.

(** [k in x] for a string [k]: key membership on a dict, element
    membership on a list, substring on a string. *)
Definition py_contains (x : pyval) (k : string) : res bool :=
  match x with
  | PDict entries =>
      Ok (match assoc k entries with Some _ => true | None => false end)
  | PList items => Ok (existsb (fun v => py_eq_str v k) items)
  | PStr s => Ok (is_substring k s)
  | _ => Raise (Exc TypeError_ "argument is not iterable")
  end.

Fixpoint chars (s : string) : list pyval :=
  match s with
  | EmptyString => []
  | String a s' => PStr (String a EmptyString) :: chars s'
  end.

(** The items a [for] loop visits: the elements of a list, the keys of a
    dict, the characters of a string.  A string is visited byte by byte;
    the only things the client does with such an item are to call [.get]
    on it, which raises for every string, and to test ["w" in item],
    which holds of a character exactly when one of its bytes is [w]
    (a multi-byte UTF-8 character has no ASCII byte), so the split into
    bytes gives the outcomes of the split into characters. *)
Definition py_iter (x : pyval) : res (list pyval) :=
  match x with
  | PList items => Ok items
  | PDict entries => Ok (map (fun kv => PStr (fst kv)) entries)
  | PStr s => Ok (chars s)
  | _ => Raise (Exc TypeError_ "object is not iterable")
  end.

(** [for x in xs: body], where the body appends to the accumulator. *)
Fixpoint for_each {A S : Type} (xs : list A) (body : A -> S -> res S) (acc : S) : res S :=
  match xs with
  | [] => Ok acc
  | x :: rest => acc' <- body x acc ;; for_each rest body acc'
  end.

(** ["".join(segments)]: every segment must be a string. *)
Fixpoint py_join (segments : list pyval) : res string :=
  match segments with
  | [] => Ok ""
  | PStr s :: rest => t <- py_join rest ;; Ok (s ++ t)%string
  | _ :: _ => Raise (Exc TypeError_ "sequence item: expected str instance")
  end.

(** ** The library functions behind the signature

    [hashlib.md5], [hashlib.sha1], [hmac.new] and [base64.b64encode],
    written out from RFC 1321, RFC 3174, RFC 2104 and RFC 4648.  Bytes
    are integers in [0, 255]; 32-bit words are integers with the
    wrap-around written out. *)

Definition bytes := list Z.

Fixpoint encode_utf8 (s : string) : bytes :=
  match s with
  | EmptyString => []
  | String a s' => Z.of_N (N_of_ascii a) :: encode_utf8 s'
  end.

Fixpoint decode_utf8 (bs : bytes) : string :=
  match bs with
  | [] => EmptyString
  | b :: rest => String (ascii_of_N (Z.to_N b)) (decode_utf8 rest)
  end.

Module Word32.

Definition wrap (x : Z) : Z := x mod 2 ^ 32.
Definition add (x y : Z) : Z := wrap (x + y).
Definition not (x : Z) : Z := Z.lxor x 0xffffffff.
Definition rotl (x n : Z) : Z :=
  Z.lor (wrap (Z.shiftl x n)) (Z.shiftr x (32 - n)).

(** The bytes of a word, least significant first. *)
Definition to_le (n : nat) (x : Z) : bytes :=
  map (fun i => Z.land (Z.shiftr x (8 * Z.of_nat i)) 0xff) (seq 0 n).

Definition to_be (n : nat) (x : Z) : bytes := rev (to_le n x).

Definition of_be (bs : bytes) : Z :=
  fold_left (fun acc b => Z.lor (Z.shiftl acc 8) b) bs 0.

Definition of_le (bs : bytes) : Z := of_be (rev bs).

End Word32.

(** Split a byte sequence into chunks of [n] bytes, [k] of them. *)
Fixpoint chunks (n k : nat) (bs : bytes) : list bytes :=
  match k with
  | O => []
  | S k' => firstn n bs :: chunks n k' (skipn n bs)
  end.

(** Padding shared by MD5 and SHA-1: a [0x80] byte, zeros up to 56
    modulo 64, then the bit length on 8 bytes. *)
Definition pad_message (length_bytes : Z -> bytes) (msg : bytes) : bytes :=
  let len := Z.of_nat (List.length msg) in
  let zeros := Z.to_nat ((55 - len) mod 64) in
  msg ++ [0x80] ++ repeat 0 zeros ++ length_bytes (8 * len).

Definition blocks (padded : bytes) : list bytes :=
  chunks 64 (Nat.div (List.length padded) 64) padded.

Module MD5.
Import Word32.

Definition K : list Z :=
 [0xd76aa478; 0xe8c7b756; 0x242070db; 0xc1bdceee;
  0xf57c0faf; 0x4787c62a; 0xa8304613; 0xfd469501;
  0x698098d8; 0x8b44f7af; 0xffff5bb1; 0x895cd7be;
  0x6b901122; 0xfd987193; 0xa679438e; 0x49b40821;
  0xf61e2562; 0xc040b340; 0x265e5a51; 0xe9b6c7aa;
  0xd62f105d; 0x02441453; 0xd8a1e681; 0xe7d3fbc8;
  0x21e1cde6; 0xc33707d6; 0xf4d50d87; 0x455a14ed;
  0xa9e3e905; 0xfcefa3f8; 0x676f02d9; 0x8d2a4c8a;
  0xfffa3942; 0x8771f681; 0x6d9d6122; 0xfde5380c;
  0xa4beea44; 0x4bdecfa9; 0xf6bb4b60; 0xbebfbc70;
  0x289b7ec6; 0xeaa127fa; 0xd4ef3085; 0x04881d05;
  0xd9d4d039; 0xe6db99e5; 0x1fa27cf8; 0xc4ac5665;
  0xf4292244; 0x432aff97; 0xab9423a7; 0xfc93a039;
  0x655b59c3; 0x8f0ccc92; 0xffeff47d; 0x85845dd1;
  0x6fa87e4f; 0xfe2ce6e0; 0xa3014314; 0x4e0811a1;
  0xf7537e82; 0xbd3af235; 0x2ad7d2bb; 0xeb86d391].

Definition shifts : list Z :=
 [7; 12; 17; 22; 7; 12; 17; 22; 7; 12; 17; 22; 7; 12; 17; 22;
  5; 9; 14; 20; 5; 9; 14; 20; 5; 9; 14; 20; 5; 9; 14; 20;
  4; 11; 16; 23; 4; 11; 16; 23; 4; 11; 16; 23; 4; 11; 16; 23;
  6; 10; 15; 21; 6; 10; 15; 21; 6; 10; 15; 21; 6; 10; 15; 21].

Definition state : Type := Z * Z * Z * Z.

Definition init : state := (0x67452301, 0xefcdab89, 0x98badcfe, 0x10325476).

Definition step (M : list Z) (st : state) (i : nat) : state :=
  let '(A, B, C, D) := st in
  let '(F, g) :=
    match Nat.div i 16 with
    | 0%nat => (Z.lor (Z.land B C) (Z.land (not B) D), i)
    | 1%nat => (Z.lor (Z.land D B) (Z.land (not D) C), Nat.modulo (5 * i + 1) 16)
    | 2%nat => (Z.lxor (Z.lxor B C) D, Nat.modulo (3 * i + 5) 16)
    | _ => (Z.lxor C (Z.lor B (not D)), Nat.modulo (7 * i) 16)
    end in
  let F' := add (add (add F A) (nth i K 0)) (nth g M 0) in
  (D, add B (rotl F' (nth i shifts 0)), B, C).

Definition compress (st : state) (block : bytes) : state :=
  let M := map of_le (chunks 4 16 block) in
  let '(A, B, C, D) := fold_left (step M) (seq 0 64) st in
  let '(a0, b0, c0, d0) := st in
  (add a0 A, add b0 B, add c0 C, add d0 D).

Definition digest (msg : bytes) : bytes :=
  let '(A, B, C, D) :=
    fold_left compress (blocks (pad_message (to_le 8) msg)) init in
  to_le 4 A ++ to_le 4 B ++ to_le 4 C ++ to_le 4 D.

End MD5.

Module SHA1.
Import Word32.

Definition state : Type := Z * Z * Z * Z * Z.

Definition init : state :=
  (0x67452301, 0xefcdab89, 0x98badcfe, 0x10325476, 0xc3d2e1f0).

(** The message schedule, most recent word first. *)
Definition extend (ws : list Z) (_ : nat) : list Z :=
  let w := Z.lxor (Z.lxor (Z.lxor (nth 2 ws 0) (nth 7 ws 0)) (nth 13 ws 0)) (nth 15 ws 0) in
  rotl w 1 :: ws.

Definition schedule (block : bytes) : list Z :=
  rev (fold_left extend (seq 16 64) (rev (map of_be (chunks 4 16 block)))).

Definition step (W : list Z) (st : state) (i : nat) : state :=
  let '(a, b, c, d, e) := st in
  let '(f, k) :=
    match Nat.div i 20 with
    | 0%nat => (Z.lor (Z.land b c) (Z.land (not b) d), 0x5a827999)
    | 1%nat => (Z.lxor (Z.lxor b c) d, 0x6ed9eba1)
    | 2%nat => (Z.lor (Z.lor (Z.land b c) (Z.land b d)) (Z.land c d), 0x8f1bbcdc)
    | _ => (Z.lxor (Z.lxor b c) d, 0xca62c1d6)
    end in
  let temp := add (add (add (add (rotl a 5) f) e) k) (nth i W 0) in
  (temp, a, rotl b 30, c, d).

Definition compress (st : state) (block : bytes) : state :=
  let '(a, b, c, d, e) := fold_left (step (schedule block)) (seq 0 80) st in
  let '(h0, h1, h2, h3, h4) := st in
  (add h0 a, add h1 b, add h2 c, add h3 d, add h4 e).

Definition digest (msg : bytes) : bytes :=
  let '(a, b, c, d, e) :=
    fold_left compress (blocks (pad_message (to_be 8) msg)) init in
  to_be 4 a ++ to_be 4 b ++ to_be 4 c ++ to_be 4 d ++ to_be 4 e.

End SHA1.

Definition hex_digit (n : Z) : ascii :=
  ascii_of_N (Z.to_N (if n <? 10 then 48 + n else 87 + n)).

(** [hexdigest()]: two lowercase hexadecimal digits per byte. *)
Fixpoint hexlify (bs : bytes) : string :=
  match bs with
  | [] => EmptyString
  | b :: rest => String (hex_digit (b / 16)) (String (hex_digit (b mod 16)) (hexlify rest))
  end.

Definition md5_hexdigest (data : bytes) : string := hexlify (MD5.digest data).

(** [hmac.new(key, msg, hashlib.sha1).digest()]. *)
Definition hmac_sha1 (key msg : bytes) : bytes :=
  let key0 := if (64 <? Z.of_nat (List.length key)) then SHA1.digest key else key in
  let padded := key0 ++ repeat 0 (64 - List.length key0) in
  let ipad := map (fun b => Z.lxor b 0x36) padded in
  let opad := map (fun b => Z.lxor b 0x5c) padded in
  SHA1.digest (opad ++ SHA1.digest (ipad ++ msg)).

Definition b64_char (n : Z) : ascii :=
  ascii_of_N (Z.to_N
    (if n <? 26 then 65 + n
     else if n <? 52 then 97 + (n - 26)
     else if n <? 62 then 48 + (n - 52)
     else if n =? 62 then 43 else 47)).

Definition b64_pad : ascii := ascii_of_N 61.

(** [base64.b64encode]: three bytes give four characters, a last group of
    one or two bytes is padded with [=]. *)
Fixpoint b64encode (bs : bytes) : bytes :=
  let out (cs : list ascii) := map (fun c => Z.of_N (N_of_ascii c)) cs in
  match bs with
  | [] => []
  | [x] =>
      out [b64_char (x / 4); b64_char ((x mod 4) * 16); b64_pad; b64_pad]
  | [x; y] =>
      out [b64_char (x / 4); b64_char ((x mod 4) * 16 + y / 16);
           b64_char ((y mod 16) * 4); b64_pad]
  | x :: y :: z :: rest =>
      out [b64_char (x / 4); b64_char ((x mod 4) * 16 + y / 16);
           b64_char ((y mod 16) * 4 + z / 64); b64_char (z mod 64)]
      ++ b64encode rest
  end.

(** ** Numbers: [str] of an integer and [int(a / b)] *)

Definition str_of_Z (n : Z) : string :=
  DecimalString.NilZero.string_of_int (Z.to_int n).

(** Nearest integer to [n / d] for [d > 0], ties to even. *)
Definition round_half_even (n d : Z) : Z :=
  let q := n / d in
  let r := n mod d in
  if 2 * r <? d then q
  else if d <? 2 * r then q + 1
  else if Z.even q then q else q + 1.

(** [floor (log2 (a / b))] for [a, b > 0]. *)
Definition ratio_log2 (a b : Z) : Z :=
  if b <=? a then Z.log2 (a / b) else - Z.log2_up ((b + a - 1) / a).

(** [a / b] on integers is Python's true division: the binary64 number
    nearest to the quotient (ties to even), here as a 53-bit mantissa
    [m] and an exponent [s], the float being [m * 2 ^ s]. *)
Definition py_truediv (a b : Z) : Z * Z :=
  let s := ratio_log2 a b - 52 in
  let m := if 0 <=? s then round_half_even a (b * 2 ^ s)
           else round_half_even (a * 2 ^ (- s)) b in
  (m, s).

(** [int(x)] of a non-negative float: truncation. *)
Definition py_int_of_float (x : Z * Z) : Z :=
  let '(m, s) := x in
  if 0 <=? s then m * 2 ^ s else m / 2 ^ (- s).

(** [int(a / b)] for [a >= 0] and [b > 0]; [0 / b] is [0.0]. *)
Definition py_int_truediv (a b : Z) : Z :=
  if a =? 0 then 0 else py_int_of_float (py_truediv a b).

(** ** Module constants *)

Definition lfasr_host : string := "https://raasr.xfyun.cn/v2/api".
Definition api_upload : string := "/upload".
Definition api_get_result : string := "/getResult".

Definition ERROR_CODES : list (Z * string) :=
  [ (0, "成功");
    (10005, "参数无效");
    (10006, "无效的签名");
    (10007, "签名过期");
    (10008, "请求太频繁");
    (10009, "余额不足");
    (10010, "无效的订单ID");
    (10011, "无效的音频文件");
    (10012, "音频时长超过限制");
    (10019, "并发超过限制");
    (10029, "订单不存在");
    (10101, "内部错误");
    (10102, "转写失败");
    (10103, "转写超时");
    (10163, "输入参数有误");
    (10205, "无效的appid");
    (10800, "无效的音频格式") ].

Fixpoint table_lookup (k : Z) (table : list (Z * string)) : option string :=
  match table with
  | [] => None
  | (k', d) :: rest => if k =? k' then Some d else table_lookup k rest
  end.

(** The integer a dict key compares equal to, when there is one; a list
    or a dict is unhashable and cannot be looked up. *)
Definition int_key (v : pyval) : res (option Z) :=
  match v with
  | PInt n => Ok (Some n)
  | PBool b => Ok (Some (if b then 1 else 0))
  | PNone | PStr _ => Ok None
  | PList _ | PDict _ => Raise (Exc TypeError_ "unhashable type")
  end.

(** [ERROR_CODES.get(k, default)]. *)
Definition ERROR_CODES_get (k : pyval) (default : string) : res string :=
  key <- int_key k ;;
  Ok (match key with
      | Some n =>
          match table_lookup n ERROR_CODES with
          | Some d => d
          | None => default
          end
      | None => default
      end).

(** [str(v)] as an f-string formats it.  The client formats a decoded
    value only after the table lookup on that value, which raises for a
    list or a dict; their rendering is never produced. *)
Definition py_str (v : pyval) : string :=
  match v with
  | PNone => "None"
  | PBool true => "True"
  | PBool false => "False"
  | PInt n => str_of_Z n
  | PStr s => s
  | PList _ => "[...]"
  | PDict _ => "{...}"
  end.

(** ** The client object *)

Record LFASRClient : Type := mkClient {
  appid : string;
  secret_key : string;
  max_retry : Z;
  poll_interval : Z;
  result_type : string;
  ts : string;
  signa : string
}.

(** [_generate_signa(self)]. *)
Definition _generate_signa (self : LFASRClient) : string :=
  let data := encode_utf8 (appid self ++ ts self)%string in
  let md5_value := md5_hexdigest data in
  let signa := hmac_sha1 (encode_utf8 (secret_key self)) (encode_utf8 md5_value) in
  decode_utf8 (b64encode signa).

(** [update_timestamp(self)]; [now] is [int(time.time())] as the clock
    reads when the method runs. *)
Definition update_timestamp (now : Z) (self : LFASRClient) : LFASRClient :=
  let self1 :=
    mkClient (appid self) (secret_key self) (max_retry self) (poll_interval self)
             (result_type self) (str_of_Z now) (signa self) in
  mkClient (appid self1) (secret_key self1) (max_retry self1) (poll_interval self1)
           (result_type self1) (ts self1) (_generate_signa self1).

(** [__init__]; the defaults of the keyword arguments are those of the
    source ([max_retry=3, poll_interval=5,
    result_type="transfer,predict"]). *)
Definition __init__ (now : Z) (appid secret_key : string)
    (max_retry poll_interval : Z) (result_type : string) : LFASRClient :=
  update_timestamp now
    (mkClient appid secret_key max_retry poll_interval result_type "" "").

Definition default_max_retry : Z := 3.
Definition default_poll_interval : Z := 5.
Definition default_result_type : string := "transfer,predict".

(** The signature as the specification words it:
    [base64 (HMAC-SHA1 (key = secretKey, message = hexMD5 (appId + timestamp)))]. *)
Definition sign (appId secretKey timestamp : string) : string :=
  decode_utf8
    (b64encode
       (hmac_sha1 (encode_utf8 secretKey)
          (encode_utf8 (hexlify (MD5.digest (encode_utf8 (appId ++ timestamp)%string)))))).

(** ** The outside world *)

(** The file system: the size in bytes of the file at a path, [None]
    where there is no file. *)
Definition filesystem : Type := string -> option Z.

Definition os_path_exists (fs : filesystem) (path : string) : bool :=
  match fs path with Some _ => true | None => false end.

Definition os_path_getsize (fs : filesystem) (path : string) : res Z :=
  match fs path with
  | Some size => Ok size
  | None => Raise (Exc FileNotFoundError_ path)
  end.

(** [os.path.basename]: what follows the last [/]. *)
Fixpoint os_path_basename (path : string) : string :=
  match path with
  | EmptyString => EmptyString
  | String c rest =>
      if is_substring "/" rest then os_path_basename rest
      else if Ascii.eqb c "/"%char then rest
      else path
  end.

(** A request: the endpoint and the query parameters that [urlencode]
    appends to it. *)
Record http_request : Type := mkRequest {
  url : string;
  params : list (string * pyval)
}.

(** A [requests] response, through the two members the client reads:
    [status_code] and the outcome of [json()]. *)
Record response : Type := mkResponse {
  status_code : Z;
  json : res pyval
}.

(** What the client does to the world, in order.  The body of a [Post]
    is the content of the named file. *)
Inductive event : Type :=
| Post (request : http_request) (file_path : string)
| Get (request : http_request)
| Sleep (seconds : Z).

(** ** [_estimate_duration] and [upload_file] *)

Definition _estimate_duration (fs : filesystem) (file_path : string) : res string :=
  file_size <- os_path_getsize fs file_path ;;
  let duration := py_int_truediv file_size 32000 in
  Ok (str_of_Z duration).

(** [upload_file(self, file_path)]; [reply] is what [requests.post]
    does, a response or an exception.  The result pairs the requests
    sent with the value returned or the exception raised. *)
Definition upload_file (self : LFASRClient) (fs : filesystem) (file_path : string)
    (reply : res response) : list event * res pyval :=
  if negb (os_path_exists fs file_path) then
    ([], Raise (Exc FileNotFoundError_ ("指定文件不存在: " ++ file_path)%string))
  else
    let file_name := os_path_basename file_path in
    let built :=
      file_size <- os_path_getsize fs file_path ;;
      duration <- _estimate_duration fs file_path ;;
      Ok [ ("appId", PStr (appid self));
           ("signa", PStr (signa self));
           ("ts", PStr (ts self));
           ("fileSize", PInt file_size);
           ("fileName", PStr file_name);
           ("duration", PStr duration) ] in
    match built with
    | Raise e => ([], Raise e)
    | Ok params =>
        let request := mkRequest (lfasr_host ++ api_upload)%string params in
        ([Post request file_path],
         (* except requests.exceptions.RequestException: raise *)
         response <- reply ;;
         if negb (status_code response =? 200) then
           Raise (Exc Exception_ ("上传失败 HTTP " ++ str_of_Z (status_code response))%string)
         else
           (* except json.JSONDecodeError: raise *)
           result <- json response ;;
           code <- py_get result "code" PNone ;;
           if negb (py_eq_int code 0) then
             code' <- py_getitem result "code" ;;
             error_msg <- ERROR_CODES_get code' "未知错误" ;;
             Raise (Exc Exception_
                      ("API错误: " ++ error_msg ++ " (code: " ++ py_str code' ++ ")")%string)
           else
             (* the log line reads result['content']['orderId'] *)
             content <- py_getitem result "content" ;;
             _ <- py_getitem content "orderId" ;;
             Ok result)
    end.

(** ** [get_transcription_result] *)

(** How one pass through the body of the [while] loop ends: with
    [return result], or with [time.sleep(self.poll_interval)] followed
    by [continue] (or by the end of the body) with the counter as
    given. *)
Inductive control : Type :=
| Return_ (result : pyval)
| SleepContinue (attempts : Z).

(** The [try] block of the loop, given what [requests.get] does.  The
    log lines are left out, except for the subscripts and the table
    lookup they evaluate, which can raise. *)
Definition poll_try (attempts : Z) (reply : res response) : res control :=
  response <- reply ;;
  if negb (status_code response =? 200) then
    Ok (SleepContinue (attempts + 1))
  else
    result <- json response ;;
    code <- py_get result "code" PNone ;;
    if negb (py_eq_int code 0) then
      (* error_msg = ERROR_CODES.get(result['code'], "未知错误") *)
      code' <- py_getitem result "code" ;;
      _ <- ERROR_CODES_get code' "未知错误" ;;
      Ok (SleepContinue (attempts + 1))
    else
      (* status = result['content']['orderInfo']['status'] *)
      content <- py_getitem result "content" ;;
      orderInfo <- py_getitem content "orderInfo" ;;
      status <- py_getitem orderInfo "status" ;;
      if py_eq_int status 4 then Ok (Return_ result)
      else if py_in_ints status [0; 1; 3] then Ok (SleepContinue attempts)
      else if py_eq_int status 5 then Raise (Exc Exception_ "转写失败")
      else Ok (SleepContinue (attempts + 1)).

(** The [try] block with its handler [except Exception as e], which
    counts the attempt and sleeps. *)
Definition poll_step (attempts : Z) (reply : res response) : control :=
  match poll_try attempts reply with
  | Ok c => c
  | Raise _ => SleepContinue (attempts + 1)
  end.

(** How a call ends: it returns, it raises, or the script of replies is
    used up while the loop is still polling. *)
Inductive outcome : Type :=
| Returned (result : pyval)
| Raised (e : pyexc)
| Pending.

Record run : Type := mkRun {
  events : list event;
  attempts : Z;
  ending : outcome
}.

Definition after (evs : list event) (r : run) : run :=
  mkRun (evs ++ events r) (attempts r) (ending r).

(** The [while attempts < self.max_retry] loop; each pass consumes the
    next reply of the service. *)
Fixpoint poll_loop (self : LFASRClient) (request : http_request) (attempts : Z)
    (script : list (res response)) {struct script} : run :=
  if attempts <? max_retry self then
    match script with
    | [] => mkRun [] attempts Pending
    | reply :: rest =>
        match poll_step attempts reply with
        | Return_ result => mkRun [Get request] attempts (Returned result)
        | SleepContinue attempts' =>
            after [Get request; Sleep (poll_interval self)]
                  (poll_loop self request attempts' rest)
        end
    end
  else mkRun [] attempts (Raised (Exc TimeoutError_ "获取转写结果超时")).

(** [get_transcription_result(self, upload_result)]; [now] is the clock
    at entry.  The client comes back with its refreshed timestamp and
    signature. *)
Definition get_transcription_result (self : LFASRClient) (now : Z)
    (upload_result : pyval) (script : list (res response)) : LFASRClient * run :=
  let self := update_timestamp now self in
  match (content <- py_getitem upload_result "content" ;; py_getitem content "orderId") with
  | Raise e => (self, mkRun [] 0 (Raised e))
  | Ok order_id =>
      let params :=
        [ ("appId", PStr (appid self));
          ("signa", PStr (signa self));
          ("ts", PStr (ts self));
          ("orderId", order_id);
          ("resultType", PStr (result_type self)) ] in
      let request := mkRequest (lfasr_host ++ api_get_result)%string params in
      (self, poll_loop self request 0 script)
  end.

(** ** [extract_transcript_text] *)

(** [try: body except Exception as e: handler]. *)
Definition try_except {A : Type} (body : res A) (handler : pyexc -> res A) : res A :=
  match body with
  | Ok a => Ok a
  | Raise e => handler e
  end.

Definition unrecognized_sentinel : string := "无法解析转写结果".
Definition failure_sentinel : string := "提取文本内容失败".

Section Extraction.

(** [json.loads] on a string: the decoded value or the decoder's
    exception.  The properties below hold whatever the decoder does. *)
Variable json_loads : string -> res pyval.

Definition py_json_loads (v : pyval) : res pyval :=
  match v with
  | PStr s => json_loads s
  | _ => Raise (Exc TypeError_ "the JSON object must be str, bytes or bytearray")
  end.

(** [for x in v: body]. *)
Definition for_in (v : pyval) (body : pyval -> list pyval -> res (list pyval))
    (segments : list pyval) : res (list pyval) :=
  xs <- py_iter v ;;
  for_each xs body segments.

Definition walk_cw (cw : pyval) (segments : list pyval) : res (list pyval) :=
  has_w <- py_contains cw "w" ;;
  if has_w : bool then
    w <- py_getitem cw "w" ;;
    Ok (segments ++ [w])
  else Ok segments.

Definition walk_ws (ws : pyval) (segments : list pyval) : res (list pyval) :=
  cws <- py_get ws "cw" (PList []) ;;
  for_in cws walk_cw segments.

Definition walk_rt (rt : pyval) (segments : list pyval) : res (list pyval) :=
  wss <- py_get rt "ws" (PList []) ;;
  for_in wss walk_ws segments.

Definition walk_lattice (lattice : pyval) (segments : list pyval) : res (list pyval) :=
  best <- py_get lattice "json_1best" (PDict []) ;;
  st <- py_get best "st" (PDict []) ;;
  rts <- py_get st "rt" (PList []) ;;
  for_in rts walk_rt segments.

Definition walk_sentence (sentence : pyval) (segments : list pyval) : res (list pyval) :=
  words <- py_get sentence "words" (PList []) ;;
  for_in words walk_cw segments.

(** The body of the [try] block. *)
Definition extract_body (result : pyval) : res string :=
  content <- py_getitem result "content" ;;
  text <- py_getitem content "orderResult" ;;
  order_result <- py_json_loads text ;;
  let segments := [] in
  has_lattice <- py_contains order_result "lattice" ;;
  if has_lattice : bool then
    lattices <- py_getitem order_result "lattice" ;;
    segments <- for_in lattices walk_lattice segments ;;
    py_join segments
  else
    has_sentences <- py_contains order_result "sentences" ;;
    if has_sentences : bool then
      sentences <- py_getitem order_result "sentences" ;;
      segments <- for_in sentences walk_sentence segments ;;
      py_join segments
    else Ok unrecognized_sentinel.

Definition extract_transcript_text (result : pyval) : res string :=
  try_except (extract_body result) (fun e => Ok failure_sentinel).

End Extraction.

(** ** Sample worlds *)

(** The client of the service's documentation example, and the same
    credentials and timestamp under other settings. *)
Definition client_a : LFASRClient :=
  __init__ 1512041814 "595f23df" "d9f4aa7ea6d94faca62cd88a28fd5234"
       default_max_retry default_poll_interval default_result_type.


(** A file system with one file. *)
Definition one_file (path : string) (size : Z) : filesystem :=
  fun p => if String.eqb p path then Some size else None.

(** ** Reading a run and a reply *)

(** The status queries of a run, in order. *)
Fixpoint queries (evs : list event) : list http_request :=
  match evs with
  | [] => []
  | Get request :: rest => request :: queries rest
  | _ :: rest => queries rest
  end.

(** The waits of a run, in order. *)
Fixpoint sleeps (evs : list event) : list Z :=
  match evs with
  | [] => []
  | Sleep seconds :: rest => seconds :: sleeps rest
  | _ :: rest => sleeps rest
  end.

(** The timestamp and signature a request carries. *)
Definition credentials (request : http_request) : option pyval * option pyval :=
  (assoc "ts" (params request), assoc "signa" (params request)).

Definition field (v : pyval) (k : string) : option pyval :=
  match v with
  | PDict entries => assoc k entries
  | _ => None
  end.

(** [body.content.orderInfo.status], when all three fields are there. *)
Definition status_field (body : pyval) : option pyval :=
  match field body "content" with
  | Some content =>
      match field content "orderInfo" with
      | Some info => field info "status"
      | None => None
      end
  | None => None
  end.

(** [body.content.orderId], when both fields are there. *)
Definition order_id_field (body : pyval) : option pyval :=
  match field body "content" with
  | Some content => field content "orderId"
  | None => None
  end.

(** What a polling attempt sees of the service. *)
Inductive observation : Type :=
| RequestError                  (* the request itself raised *)
| HttpError (status : Z)        (* an HTTP status other than 200 *)
| BadBody                       (* HTTP 200; the body is not JSON, or lacks
                                   the code or the status fields *)
| AppError (code : pyval)       (* an application code other than 0 *)
| OrderStatus (status : pyval). (* code 0 and an order status *)

Definition observe (reply : res response) : observation :=
  match reply with
  | Raise _ => RequestError
  | Ok response =>
      if status_code response =? 200 then
        match json response with
        | Raise _ => BadBody
        | Ok body =>
            match field body "code" with
            | None => BadBody
            | Some code =>
                if py_eq_int code 0 then
                  match status_field body with
                  | Some status => OrderStatus status
                  | None => BadBody
                  end
                else AppError code
            end
        end
      else HttpError (status_code response)
  end.

Definition is_complete (o : observation) : bool :=
  match o with OrderStatus status => py_eq_int status 4 | _ => false end.

Definition in_progress (o : observation) : bool :=
  match o with OrderStatus status => py_in_ints status [0; 1; 3] | _ => false end.

Definition is_failed (o : observation) : bool :=
  match o with OrderStatus status => py_eq_int status 5 | _ => false end.

(** The attempts that count against the budget: a failed request, an
    HTTP error, a body that cannot be used, an application error, or a
    status outside [{0, 1, 3, 4, 5}]. *)
Definition counted (o : observation) : bool :=
  match o with
  | OrderStatus status => negb (py_in_ints status [0; 1; 3; 4; 5])
  | _ => true
  end.


(** A well-formed reply of the service with application code 0 and the
    given order status, and a well-formed reply to an upload. *)
Definition status_body (status : Z) : pyval :=
  PDict [ ("code", PInt 0);
          ("content", PDict [ ("orderInfo", PDict [ ("status", PInt status) ]) ]) ].

Definition status_reply (status : Z) : res response :=
  Ok (mkResponse 200 (Ok (status_body status))).

Definition upload_body (order_id : string) : pyval :=
  PDict [ ("code", PInt 0); ("content", PDict [ ("orderId", PStr order_id) ]) ].

Definition timeout_error : pyexc := Exc TimeoutError_ "获取转写结果超时".
Definition transcription_failed : pyexc := Exc Exception_ "转写失败".

(** The attempts after which the loop has a larger counter: the counted
    ones, and the ones that see status 5. *)
Definition increments (reply : res response) : bool :=
  counted (observe reply) || is_failed (observe reply).

Definition count_where {A : Type} (p : A -> bool) (xs : list A) : Z :=
  Z.of_nat (List.length (filter p xs)).

(** The status query of a client for an order. *)
Definition poll_request (self : LFASRClient) (order_id : pyval) : http_request :=
  mkRequest (lfasr_host ++ api_get_result)%string
    [ ("appId", PStr (appid self));
      ("signa", PStr (signa self));
      ("ts", PStr (ts self));
      ("orderId", order_id);
      ("resultType", PStr (result_type self)) ].


(** Sample replies: HTTP 500, a 200 whose body is not JSON, a 200 whose
    JSON body has no status, an application error. *)
Definition http_500 : res response :=
  Ok (mkResponse 500 (Raise (Exc JSONDecodeError_ "Expecting value"))).



Definition app_error (code : Z) : res response :=
  Ok (mkResponse 200 (Ok (PDict [ ("code", PInt code) ]))).

Definition sample_script : list (res response) :=
  [ status_reply 1; http_500; status_reply 0; status_reply 2;
    status_reply 3; app_error 10008; status_reply 4 ].

(** ** The two result schemas *)

(** The tokens of a word item ([cw[]] of the lattice schema, [words[]]
    of the sentences schema): its [w] field, when it has one. *)
Inductive word_tokens : pyval -> list string -> Prop :=
| word_with_w entries w :
    assoc "w" entries = Some (PStr w) ->
    word_tokens (PDict entries) [w]
| word_without_w entries :
    assoc "w" entries = None ->
    word_tokens (PDict entries) [].

(** The tokens under a list-valued field [k] of an object: those of the
    items of the list, in order; none when the field is absent. *)
Inductive list_field_tokens (item : pyval -> list string -> Prop) (k : string)
  : pyval -> list string -> Prop :=
| list_field_present entries items tokens :
    assoc k entries = Some (PList items) ->
    Forall2 item items tokens ->
    list_field_tokens item k (PDict entries) (List.concat tokens)
| list_field_absent entries :
    assoc k entries = None ->
    list_field_tokens item k (PDict entries) [].

Definition ws_tokens : pyval -> list string -> Prop :=
  list_field_tokens word_tokens "cw".

Definition rt_tokens : pyval -> list string -> Prop :=
  list_field_tokens ws_tokens "ws".

(** An item of [lattice[]]: the tokens under [json_1best.st.rt[]]. *)
Inductive lattice_tokens : pyval -> list string -> Prop :=
| lattice_full entries best st tokens :
    assoc "json_1best" entries = Some (PDict best) ->
    assoc "st" best = Some st ->
    list_field_tokens rt_tokens "rt" st tokens ->
    lattice_tokens (PDict entries) tokens
| lattice_without_st entries best :
    assoc "json_1best" entries = Some (PDict best) ->
    assoc "st" best = None ->
    lattice_tokens (PDict entries) []
| lattice_without_best entries :
    assoc "json_1best" entries = None ->
    lattice_tokens (PDict entries) [].

Definition sentence_tokens : pyval -> list string -> Prop :=
  list_field_tokens word_tokens "words".

(** A document with a [lattice] key, and a document with a [sentences]
    key instead, with their [w] fields in traversal order. *)
Inductive lattice_document : pyval -> list string -> Prop :=
| lattice_document_intro entries items tokens :
    assoc "lattice" entries = Some (PList items) ->
    Forall2 lattice_tokens items tokens ->
    lattice_document (PDict entries) (List.concat tokens).

Inductive sentences_document : pyval -> list string -> Prop :=
| sentences_document_intro entries items tokens :
    assoc "lattice" entries = None ->
    assoc "sentences" entries = Some (PList items) ->
    Forall2 sentence_tokens items tokens ->
    sentences_document (PDict entries) (List.concat tokens).

(** The tokens put end to end, nothing in between. *)
Definition concatenation (tokens : list string) : string :=
  fold_right String.append "" tokens.

(** [result.content.orderResult], when both fields are there. *)
Definition order_result_field (result : pyval) : option pyval :=
  match field result "content" with
  | Some content => field content "orderResult"
  | None => None
  end.

(** A document that matches neither schema: an object without the two
    keys. *)
Definition neither_schema (order_result : pyval) : Prop :=
  exists entries,
    order_result = PDict entries
    /\ assoc "lattice" entries = None
    /\ assoc "sentences" entries = None.

(** A loop body [walk] appends to the segments the tokens that [item]
    assigns to the value it visits. *)
Definition appends (walk : pyval -> list pyval -> res (list pyval))
    (item : pyval -> list string -> Prop) : Prop :=
  forall v tokens segments,
    item v tokens -> walk v segments = Ok (segments ++ map PStr tokens).

(** ** A decoder to run the examples with

    [json_loads_lite] decodes the JSON texts built from objects, arrays,
    strings without escapes, integers, [true], [false] and [null];
    [json_dumps_lite] writes such texts.  They stand for [json.loads] in
    the examples; the properties of extraction are proved for every
    decoder. *)

Definition quote : ascii := "034"%char.

Definition is_space (c : ascii) : bool :=
  match c with
  | " "%char | "009"%char | "010"%char | "013"%char => true
  | _ => false
  end.

Definition is_digit (c : ascii) : bool :=
  let n := N_of_ascii c in (48 <=? n)%N && (n <=? 57)%N.

Fixpoint skip_spaces (s : string) : string :=
  match s with
  | String c rest => if is_space c then skip_spaces rest else s
  | EmptyString => s
  end.

(** The characters up to the closing quote, and what follows it. *)
Fixpoint scan_string (s : string) : option (string * string) :=
  match s with
  | EmptyString => None
  | String c rest =>
      if Ascii.eqb c quote then Some (EmptyString, rest)
      else if Ascii.eqb c "\"%char then None
      else match scan_string rest with
           | Some (body, rest') => Some (String c body, rest')
           | None => None
           end
  end.

Fixpoint scan_digits (acc : Z) (s : string) : Z * string :=
  match s with
  | String c rest =>
      if is_digit c then scan_digits (10 * acc + (Z.of_N (N_of_ascii c) - 48)) rest
      else (acc, s)
  | EmptyString => (acc, s)
  end.

(** A run of digits without a superfluous leading zero. *)
Definition scan_number (s : string) : option (Z * string) :=
  match s with
  | String "0" (String c _) => if is_digit c then None else Some (scan_digits 0 s)
  | String c _ => if is_digit c then Some (scan_digits 0 s) else None
  | EmptyString => None
  end.

(** [d[k] = v] on the entries of a dict: a key decoded twice keeps its
    place and takes the later value. *)
Fixpoint dict_set (k : string) (v : pyval) (entries : list (string * pyval))
  : list (string * pyval) :=
  match entries with
  | [] => [(k, v)]
  | (k', v') :: rest =>
      if String.eqb k k' then (k, v) :: rest else (k', v') :: dict_set k v rest
  end.

Fixpoint parse_value (fuel : nat) (s : string) : option (pyval * string) :=
  match fuel with
  | O => None
  | S fuel' =>
      match skip_spaces s with
      | String "{" rest =>
          match skip_spaces rest with
          | String "}" rest' => Some (PDict [], rest')
          | rest' => parse_members fuel' [] rest'
          end
      | String "[" rest =>
          match skip_spaces rest with
          | String "]" rest' => Some (PList [], rest')
          | rest' => parse_elements fuel' [] rest'
          end
      | String "t" (String "r" (String "u" (String "e" rest))) => Some (PBool true, rest)
      | String "f" (String "a" (String "l" (String "s" (String "e" rest)))) =>
          Some (PBool false, rest)
      | String "n" (String "u" (String "l" (String "l" rest))) => Some (PNone, rest)
      | String "-" rest =>
          match scan_number rest with
          | Some (n, rest') => Some (PInt (- n), rest')
          | None => None
          end
      | String c rest =>
          if Ascii.eqb c quote then
            match scan_string rest with
            | Some (body, rest') => Some (PStr body, rest')
            | None => None
            end
          else
            match scan_number (String c rest) with
            | Some (n, rest') => Some (PInt n, rest')
            | None => None
            end
      | EmptyString => None
      end
  end

with parse_elements (fuel : nat) (acc : list pyval) (s : string) : option (pyval * string) :=
  match fuel with
  | O => None
  | S fuel' =>
      match parse_value fuel' s with
      | Some (v, rest) =>
          match skip_spaces rest with
          | String "," rest' => parse_elements fuel' (acc ++ [v]) rest'
          | String "]" rest' => Some (PList (acc ++ [v]), rest')
          | _ => None
          end
      | None => None
      end
  end

with parse_members (fuel : nat) (acc : list (string * pyval)) (s : string)
  : option (pyval * string) :=
  match fuel with
  | O => None
  | S fuel' =>
      match skip_spaces s with
      | String c rest =>
          if Ascii.eqb c quote then
            match scan_string rest with
            | Some (k, rest1) =>
                match skip_spaces rest1 with
                | String ":" rest2 =>
                    match parse_value fuel' rest2 with
                    | Some (v, rest3) =>
                        match skip_spaces rest3 with
                        | String "," rest4 => parse_members fuel' (dict_set k v acc) rest4
                        | String "}" rest4 => Some (PDict (dict_set k v acc), rest4)
                        | _ => None
                        end
                    | None => None
                    end
                | _ => None
                end
            | None => None
            end
          else None
      | EmptyString => None
      end
  end.

Definition json_loads_lite (s : string) : res pyval :=
  match parse_value (2 * String.length s + 2) s with
  | Some (v, rest) =>
      match skip_spaces rest with
      | EmptyString => Ok v
      | _ => Raise (Exc JSONDecodeError_ "Extra data")
      end
  | None => Raise (Exc JSONDecodeError_ "Expecting value")
  end.

Definition quoted (s : string) : string :=
  (String quote s ++ String quote EmptyString)%string.

Fixpoint json_dumps_lite (v : pyval) : string :=
  let fix elements (vs : list pyval) : string :=
    match vs with
    | [] => ""
    | [v] => json_dumps_lite v
    | v :: rest => (json_dumps_lite v ++ ", " ++ elements rest)%string
    end in
  let fix members (kvs : list (string * pyval)) : string :=
    match kvs with
    | [] => ""
    | [(k, v)] => (quoted k ++ ": " ++ json_dumps_lite v)%string
    | (k, v) :: rest => (quoted k ++ ": " ++ json_dumps_lite v ++ ", " ++ members rest)%string
    end in
  match v with
  | PNone => "null"
  | PBool true => "true"
  | PBool false => "false"
  | PInt n => str_of_Z n
  | PStr s => quoted s
  | PList items => ("[" ++ elements items ++ "]")%string
  | PDict entries => ("{" ++ members entries ++ "}")%string
  end.

(** ** Sample results *)

Definition word (w : string) : pyval := PDict [ ("w", PStr w) ].

(** The lattice payload with tokens 今, 天, 天气. *)
Definition lattice_sample : pyval :=
  PDict [ ("lattice",
           PList [ PDict [ ("json_1best",
             PDict [ ("st",
               PDict [ ("rt",
                 PList [ PDict [ ("ws",
                   PList [ PDict [ ("cw", PList [ word "今" ]) ];
                           PDict [ ("cw", PList [ word "天" ]) ];
                           PDict [ ("cw", PList [ word "天气" ]) ] ]) ] ]) ]) ]) ] ]) ].

(** The sentences payload with words hello, a space, world. *)
Definition sentences_sample : pyval :=
  PDict [ ("sentences",
           PList [ PDict [ ("words", PList [ word "hello"; word " "; word "world" ]) ] ]) ].

(** The final reply of the service around an embedded document given as
    text, and around a document written out by [json_dumps_lite]. *)
Definition result_with_text (text : string) : pyval :=
  PDict [ ("code", PInt 0);
          ("content", PDict [ ("orderInfo", PDict [ ("status", PInt 4) ]);
                              ("orderResult", PStr text) ]) ].

Definition result_with (order_result : pyval) : pyval :=
  result_with_text (json_dumps_lite order_result).

(** ** Further readings of a run *)

(** Whether a call ended by returning. *)
Definition returned (o : outcome) : bool :=
  match o with Returned _ => true | _ => false end.

Definition is_pending (o : outcome) : bool :=
  match o with Pending => true | _ => false end.

(** [n] rounds of query and sleep. *)
Definition rounds (request : http_request) (seconds : Z) (n : nat) : list event :=
  List.concat (repeat [Get request; Sleep seconds] n).

(** A script that ends with the completed order. *)
Definition sample_script_done : list (res response) :=
  [ status_reply 1; http_500; status_reply 3; status_reply 4 ].

(** The seconds a run spends sleeping. *)
Definition total_sleep (evs : list event) : Z :=
  fold_right Z.add 0 (sleeps evs).

(** ** Signed requests *)

(** The requests among the events, uploads and status queries alike. *)
Fixpoint requests (evs : list event) : list http_request :=
  match evs with
  | [] => []
  | Post request _ :: rest => request :: requests rest
  | Get request :: rest => request :: requests rest
  | Sleep _ :: rest => requests rest
  end.

(** A request is signed for the credentials when it names the
    application and carries a timestamp with the signature of that very
    timestamp. *)
Definition request_signed (appId secretKey : string) (request : http_request) : Prop :=
  exists timestamp,
    assoc "appId" (params request) = Some (PStr appId)
    /\ assoc "ts" (params request) = Some (PStr timestamp)
    /\ assoc "signa" (params request) = Some (PStr (sign appId secretKey timestamp)).

(** The clients a program can hold: one made by [__init__], then used
    through [update_timestamp] and [get_transcription_result], the two
    methods that change it. *)
Inductive in_use (appId secretKey : string) : LFASRClient -> Prop :=
| in_use_created now max_retry poll_interval result_type :
    in_use appId secretKey
      (__init__ now appId secretKey max_retry poll_interval result_type)
| in_use_updated self now :
    in_use appId secretKey self ->
    in_use appId secretKey (update_timestamp now self)
| in_use_polled self now upload_result script :
    in_use appId secretKey self ->
    in_use appId secretKey (fst (get_transcription_result self now upload_result script)).

(** The sample client after a first call of [get_transcription_result]. *)
Definition client_polled : LFASRClient :=
  fst (get_transcription_result client_a 1512041900 (upload_body "abc123")
         [status_reply 4]).

(** ** The [w] values of a document, strings or not *)

(** The value under [w] of a word item, when it has one. *)
Inductive word_values : pyval -> list pyval -> Prop :=
| word_value entries v :
    assoc "w" entries = Some v ->
    word_values (PDict entries) [v]
| word_no_value entries :
    assoc "w" entries = None ->
    word_values (PDict entries) [].

Inductive list_field_values (item : pyval -> list pyval -> Prop) (k : string)
  : pyval -> list pyval -> Prop :=
| list_field_values_present entries items values :
    assoc k entries = Some (PList items) ->
    Forall2 item items values ->
    list_field_values item k (PDict entries) (List.concat values)
| list_field_values_absent entries :
    assoc k entries = None ->
    list_field_values item k (PDict entries) [].

Inductive lattice_values : pyval -> list pyval -> Prop :=
| lattice_values_full entries best st values :
    assoc "json_1best" entries = Some (PDict best) ->
    assoc "st" best = Some st ->
    list_field_values
      (list_field_values (list_field_values word_values "cw") "ws") "rt" st values ->
    lattice_values (PDict entries) values
| lattice_values_without_st entries best :
    assoc "json_1best" entries = Some (PDict best) ->
    assoc "st" best = None ->
    lattice_values (PDict entries) []
| lattice_values_without_best entries :
    assoc "json_1best" entries = None ->
    lattice_values (PDict entries) [].

(** The [w] values of a document of either schema, in traversal order. *)
Inductive document_values : pyval -> list pyval -> Prop :=
| document_lattice entries items values :
    assoc "lattice" entries = Some (PList items) ->
    Forall2 lattice_values items values ->
    document_values (PDict entries) (List.concat values)
| document_sentences entries items values :
    assoc "lattice" entries = None ->
    assoc "sentences" entries = Some (PList items) ->
    Forall2 (list_field_values word_values "words") items values ->
    document_values (PDict entries) (List.concat values).

Definition is_str (v : pyval) : bool :=
  match v with PStr _ => true | _ => false end.

(** A loop body [walk] appends the values that [item] assigns to what it
    visits. *)
Definition appends_values (walk : pyval -> list pyval -> res (list pyval))
    (item : pyval -> list pyval -> Prop) : Prop :=
  forall v values segments,
    item v values -> walk v segments = Ok (segments ++ values).

(** What extraction gives on a document that is not an object. *)
Definition non_object_transcript (order_result : pyval) : string :=
  match order_result with
  | PList items =>
      if existsb (fun v => py_eq_str v "lattice") items
         || existsb (fun v => py_eq_str v "sentences") items
      then failure_sentinel else unrecognized_sentinel
  | PStr s =>
      if is_substring "lattice" s || is_substring "sentences" s
      then failure_sentinel else unrecognized_sentinel
  | _ => failure_sentinel
  end.

(** The body of the [try] block of [extract_transcript_text] after its
    two subscripts, on the value found under [orderResult]. *)
Definition extract_document (json_loads : string -> res pyval) (text : pyval) : res string :=
  order_result <- py_json_loads json_loads text ;;
  has_lattice <- py_contains order_result "lattice" ;;
  if has_lattice : bool then
    lattices <- py_getitem order_result "lattice" ;;
    segments <- for_in lattices walk_lattice [] ;;
    py_join segments
  else
    has_sentences <- py_contains order_result "sentences" ;;
    if has_sentences : bool then
      sentences <- py_getitem order_result "sentences" ;;
      segments <- for_in sentences walk_sentence [] ;;
      py_join segments
    else Ok unrecognized_sentinel.

(** A sentences payload with a number among the words. *)
Definition sentences_with_number : pyval :=
  PDict [ ("sentences",
           PList [ PDict [ ("words",
                     PList [ word "hello"; PDict [ ("w", PInt 5) ]; word "world" ]) ] ]) ].

(** ** [save_results], [transcribe] and the worker of the window *)

(** What precedes the last dot of a name, when it has a dot. *)
Fixpoint before_last_dot (name : string) : option string :=
  match name with
  | EmptyString => None
  | String c rest =>
      match before_last_dot rest with
      | Some root => Some (String c root)
      | None => if Ascii.eqb c "."%char then Some EmptyString else None
      end
  end.

Fixpoint all_dots (s : string) : bool :=
  match s with
  | EmptyString => true
  | String c rest => Ascii.eqb c "."%char && all_dots rest
  end.

(** [os.path.splitext(name)[0]] for a name without directories: the
    name without its extension, the extension starting at the last dot
    unless only dots precede it. *)
Definition splitext_root (name : string) : string :=
  match before_last_dot name with
  | Some root => if all_dots root then name else root
  | None => name
  end.

(** What the client and the window do to the world beyond the network. *)
Inductive ui_call : Type :=
| ShowResults (transcript text_file json_file : string)
    (* root.after(0, update_transcription_results(transcript, text_file, json_file)) *)
| ShowFailure (e : pyexc)
    (* root.after(0, transcription_failed("转写失败: " + str(e))) *)
| ResetButton.
    (* root.after(0, transcribe_button.configure(text="开始转写", state=NORMAL)) *)

Inductive action : Type :=
| Network (ev : event)
| MakeDirs (path : string)
| WriteJson (path : string) (value : pyval)
    (* open(path, 'w') and json.dump(value, f, ensure_ascii=False, indent=4) *)
| WriteText (path : string) (text : string)
| Ui (call : ui_call).

(** The world during one call of [save_results]: the formatted local
    time of [datetime.now()], and whether each of the two files can be
    opened and written. *)
Record saving : Type := mkSaving {
  stamp : string;
  open_json : res unit;
  open_text : res unit
}.

(** The world during one call of [transcribe]. *)
Record flow : Type := mkFlow {
  files : filesystem;
  makedirs : res unit;
  upload_reply : res response;
  poll_clock : Z;
  poll_replies : list (res response);
  first_save : saving
}.

(** The world during one run of the worker thread. *)
Record work : Type := mkWork {
  init_clock : Z;
  transcription : flow;
  second_save : saving
}.

(** The fields of the window that the worker touches. *)
Record window : Type := mkWindow {
  is_processing : bool;
  client : option LFASRClient
}.

Section Flow.

Variable json_loads : string -> res pyval.

(** [save_results(self, result, original_path, output_dir)]: the files
    written, then the triple returned or the exception raised. *)
Definition save_results (result : pyval) (original_path output_dir : string) (w : saving)
  : list action * res (string * string * string) :=
  let timestamp := stamp w in
  let basename := splitext_root (os_path_basename original_path) in
  let json_filename :=
    (output_dir ++ "/" ++ basename ++ "_" ++ timestamp ++ ".json")%string in
  match open_json w with
  | Raise e => ([], Raise e)
  | Ok _ =>
      let text_filename :=
        (output_dir ++ "/" ++ basename ++ "_" ++ timestamp ++ ".txt")%string in
      match extract_transcript_text json_loads result with
      | Raise e => ([WriteJson json_filename result], Raise e)
      | Ok transcript =>
          match open_text w with
          | Raise e => ([WriteJson json_filename result], Raise e)
          | Ok _ =>
              ([WriteJson json_filename result; WriteText text_filename transcript],
               Ok (transcript, text_filename, json_filename))
          end
      end
  end.

(** [transcribe(self, file_path, output_dir)]: the client as the call
    leaves it, what was done, and how the call ended. *)
Definition transcribe (self : LFASRClient) (file_path output_dir : string) (w : flow)
  : LFASRClient * list action * outcome :=
  match makedirs w with
  | Raise e => (self, [], Raised e)
  | Ok _ =>
      let '(sent, uploaded) := upload_file self (files w) file_path (upload_reply w) in
      match uploaded with
      | Raise e => (self, MakeDirs output_dir :: map Network sent, Raised e)
      | Ok upload_result =>
          let '(self', polled) :=
            get_transcription_result self (poll_clock w) upload_result (poll_replies w) in
          let done := MakeDirs output_dir :: map Network (sent ++ events polled) in
          match ending polled with
          | Raised e => (self', done, Raised e)
          | Pending => (self', done, Pending)
          | Returned trans_result =>
              let '(written, saved) :=
                save_results trans_result file_path output_dir (first_save w) in
              match saved with
              | Raise e => (self', done ++ written, Raised e)
              | Ok _ => (self', done ++ written, Returned trans_result)
              end
          end
      end
  end.

(** [run_transcription(self, appid, secret, file_path, output_dir)]:
    the window's fields afterwards, what was done, and whether the
    thread has finished ([false] while its polling loop waits for more
    replies). *)
Definition run_transcription (self : window) (appid secret file_path output_dir : string)
    (w : work) : window * list action * bool :=
  let created := __init__ (init_clock w) appid secret 3 5 default_result_type in
  let '(used, done, ended) := transcribe created file_path output_dir (transcription w) in
  match ended with
  | Pending => (mkWindow (is_processing self) (Some used), done, false)
  | Raised e =>
      (mkWindow false (Some used), done ++ [Ui (ShowFailure e); Ui ResetButton], true)
  | Returned result =>
      let '(written, saved) := save_results result file_path output_dir (second_save w) in
      match saved with
      | Raise e =>
          (mkWindow false (Some used),
           done ++ written ++ [Ui (ShowFailure e); Ui ResetButton], true)
      | Ok (transcript, text_file, json_file) =>
          (mkWindow false (Some used),
           done ++ written ++ [Ui (ShowResults transcript text_file json_file);
                               Ui ResetButton], true)
      end
  end.

End Flow.

(** The files written among the actions, in order. *)
Fixpoint json_files (acts : list action) : list (string * pyval) :=
  match acts with
  | [] => []
  | WriteJson path value :: rest => (path, value) :: json_files rest
  | _ :: rest => json_files rest
  end.

Fixpoint text_files (acts : list action) : list (string * string) :=
  match acts with
  | [] => []
  | WriteText path text :: rest => (path, text) :: text_files rest
  | _ :: rest => text_files rest
  end.

Fixpoint ui_calls (acts : list action) : list ui_call :=
  match acts with
  | [] => []
  | Ui call :: rest => call :: ui_calls rest
  | _ :: rest => ui_calls rest
  end.

(** A world in which every file operation succeeds. *)
Definition saving_at (timestamp : string) : saving :=
  mkSaving timestamp (Ok tt) (Ok tt).

Definition sample_flow : flow :=
  mkFlow (one_file "/tmp/a.wav" 32000) (Ok tt)
         (Ok (mkResponse 200 (Ok (upload_body "abc123"))))
         1512041900
         [ status_reply 1; Ok (mkResponse 200 (Ok (result_with lattice_sample))) ]
         (saving_at "20171130_123820").

Definition sample_work : work :=
  mkWork 1512041814 sample_flow (saving_at "20171130_123821").

Definition is_write (a : action) : bool :=
  match a with
  | WriteJson _ _ | WriteText _ _ => true
  | _ => false
  end.

(** A body with application code 0 and order status 4. *)
Definition complete_order (body : pyval) : Prop :=
  exists code status,
    field body "code" = Some code /\ py_eq_int code 0 = true
    /\ status_field body = Some status /\ py_eq_int status 4 = true.

(** * Properties *)

(** ** Known answers of the library functions *)

Example md5_abc : md5_hexdigest (encode_utf8 "abc") = "900150983cd24fb0d6963f7d28e17f72".
Proof. vm_compute. reflexivity. Qed.

Example md5_empty : md5_hexdigest [] = "d41d8cd98f00b204e9800998ecf8427e".
Proof. vm_compute. reflexivity. Qed.

Example sha1_abc :
  hexlify (SHA1.digest (encode_utf8 "abc")) = "a9993e364706816aba3e25717850c26c9cd0d89d".
Proof. vm_compute. reflexivity. Qed.

Example hmac_sha1_fox :
  hexlify (hmac_sha1 (encode_utf8 "key")
             (encode_utf8 "The quick brown fox jumps over the lazy dog"))
  = "de7c9b85b8b78aa6bc8a7a36f70a90701c9db4d9".
Proof. vm_compute. reflexivity. Qed.

Example b64_foobar :
  map (fun s => decode_utf8 (b64encode (encode_utf8 s))) ["f"; "fo"; "foo"; "foob"; "fooba"; "foobar"]
  = ["Zg=="; "Zm8="; "Zm9v"; "Zm9vYg=="; "Zm9vYmE="; "Zm9vYmFy"].
Proof. vm_compute. reflexivity. Qed.

Example signa_known_answer :
  signa (__init__ 1512041814 "595f23df" "d9f4aa7ea6d94faca62cd88a28fd5234"
           default_max_retry default_poll_interval default_result_type)
  = "IrrzsJeOFk1NGfJHW6SkHUoN9CU=".
Proof. vm_compute. reflexivity. Qed.

Example truediv_samples :
  map (fun a => py_int_truediv a 32000)
    [0; 1; 31999; 32000; 63999; 64000; 1000000007;
     32000 * 2 ^ 39 - 1; 32000 * (2 ^ 39 + 1) - 1; 2 ^ 62 + 12345]
  = [0; 0; 0; 1; 1; 2; 31250; 549755813887; 549755813889; 144115188075856].
Proof. vm_compute. reflexivity. Qed.

(** ** Decimal rendering *)

Lemma to_int_not_nil (n : Z) :
  Z.to_int n <> Decimal.Pos Decimal.Nil /\ Z.to_int n <> Decimal.Neg Decimal.Nil.
Proof.
  destruct n; cbn; split; try discriminate;
    intros [= H]; now apply Unsigned.to_uint_nonnil in H.
Qed.

(** Different integers have different decimal strings. *)
Lemma str_of_Z_inj (n m : Z) : str_of_Z n = str_of_Z m -> n = m.
Proof.
  unfold str_of_Z. intros H. apply DecimalZ.to_int_inj.
  destruct (to_int_not_nil n), (to_int_not_nil m).
  assert (E : Some (Z.to_int n) = Some (Z.to_int m)).
  { rewrite <- (NilZero.isi (Z.to_int n)), <- (NilZero.isi (Z.to_int m)) by assumption.
    now rewrite H. }
  now injection E.
Qed.

(** ** The signature *)



(** [update_timestamp] stores the signature of the new timestamp and
    leaves the credentials and the settings alone. *)
Lemma update_timestamp_fields (now : Z) (self : LFASRClient) :
  let self' := update_timestamp now self in
  ts self' = str_of_Z now
  /\ signa self' = sign (appid self) (secret_key self) (str_of_Z now)
  /\ appid self' = appid self
  /\ secret_key self' = secret_key self
  /\ max_retry self' = max_retry self
  /\ poll_interval self' = poll_interval self
  /\ result_type self' = result_type self.
Proof. cbv zeta. repeat split. Qed.

(** ** The duration estimate *)

Lemma round_half_even_cases (n d : Z) :
  0 < d ->
  round_half_even n d = n / d
  \/ (round_half_even n d = n / d + 1 /\ d <= 2 * (n mod d)).
Proof.
  intros Hd. unfold round_half_even.
  destruct (Z.ltb_spec (2 * (n mod d)) d) as [H1 | H1]; [now left |].
  destruct (Z.ltb_spec d (2 * (n mod d))) as [H2 | H2]; [right; lia |].
  destruct (Z.even (n / d)); [now left | right; lia].
Qed.

(** Rounding [a * P / 32000] to the nearest integer and dividing by [P]
    again gives [a / 32000] as soon as [P] exceeds half of 32000: the
    rounding cannot reach the next multiple of [P]. *)
Lemma round_then_truncate (a P : Z) :
  0 <= a -> 16000 < P ->
  round_half_even (a * P) 32000 / P = a / 32000.
Proof.
  intros Ha HP.
  pose proof (Z.div_mod a 32000 ltac:(lia)) as Ea.
  pose proof (Z.mod_pos_bound a 32000 ltac:(lia)) as Ba.
  pose proof (Z.div_mod (a * P) 32000 ltac:(lia)) as En.
  pose proof (Z.mod_pos_bound (a * P) 32000 ltac:(lia)) as Bn.
  set (k := a / 32000) in *. set (r := a mod 32000) in *.
  set (q := a * P / 32000) in *. set (s := a * P mod 32000) in *.
  assert (Hlo : k * P <= q) by nia.
  assert (Hhi : 32000 * q + s <= (32000 * k + 31999) * P) by nia.
  symmetry. apply (Z.div_unique_pos _ _ _ (round_half_even (a * P) 32000 - k * P)).
  - destruct (round_half_even_cases (a * P) 32000 ltac:(lia)) as [E | [E Hs]];
      [| fold s in Hs]; fold q in E; rewrite E; nia.
  - lia.
Qed.

Lemma ratio_log2_below (a : Z) :
  0 < a < 32000 * 2 ^ 39 -> ratio_log2 a 32000 <= 38.
Proof.
  intros [Hpos Hlt]. unfold ratio_log2.
  destruct (Z.leb_spec 32000 a) as [Hge | Hlt'].
  - assert (0 < a / 32000) by (apply Z.div_str_pos; lia).
    assert (a / 32000 < 2 ^ 39) by (apply Z.div_lt_upper_bound; lia).
    assert (Z.log2 (a / 32000) < 39) by (apply Z.log2_lt_pow2; lia).
    lia.
  - pose proof (Z.log2_up_nonneg ((32000 + a - 1) / a)). lia.
Qed.

Lemma py_int_truediv_floor (size : Z) :
  0 <= size < 32000 * 2 ^ 39 -> py_int_truediv size 32000 = size / 32000.
Proof.
  intros [Hlo Hhi]. unfold py_int_truediv.
  destruct (Z.eqb_spec size 0) as [-> | Hnz]; [reflexivity |].
  pose proof (ratio_log2_below size ltac:(lia)) as He.
  unfold py_truediv, py_int_of_float.
  set (s := ratio_log2 size 32000 - 52) in *.
  destruct (Z.leb_spec 0 s) as [Hs | Hs]; [lia |].
  apply round_then_truncate; [lia |].
  assert (2 ^ 14 <= 2 ^ (- s)) by (apply Z.pow_le_mono_r; lia).
  change (2 ^ 14) with 16384 in *. lia.
Qed.

(** C8 (amended).  For every file of size [0 <= size < 32000 * 2 ^ 39]
    bytes, the estimated duration is [floor (size / 32000)], returned as
    its decimal string; a 0-byte file gives 0 and a 32000-byte file
    gives 1. *)
Theorem estimate_duration_floor (fs : filesystem) (file_path : string) (size : Z) :
  fs file_path = Some size ->
  0 <= size < 32000 * 2 ^ 39 ->
  _estimate_duration fs file_path = Ok (str_of_Z (size / 32000)).
Proof.
  intros Hfile Hsize. unfold _estimate_duration, os_path_getsize.
  rewrite Hfile. cbn [bind]. now rewrite py_int_truediv_floor.
Qed.

Lemma estimate_duration_floor_witness :
  _estimate_duration (one_file "a.wav" 0) "a.wav" = Ok "0"
  /\ _estimate_duration (one_file "a.wav" 32000) "a.wav" = Ok "1".
Proof.
  split.
  - apply (estimate_duration_floor (one_file "a.wav" 0) "a.wav" 0); [reflexivity | lia].
  - apply (estimate_duration_floor (one_file "a.wav" 32000) "a.wav" 32000);
      [reflexivity | lia].
Defined.

(** C8, as stated, fails on a file of [32000 * (2 ^ 39 + 1) - 1] bytes:
    the float quotient rounds up to [2 ^ 39 + 1] before [int] truncates
    it, while the floor of the quotient is [2 ^ 39]. *)
Lemma estimate_duration_not_floor :
  let size := 32000 * (2 ^ 39 + 1) - 1 in
  0 <= size
  /\ _estimate_duration (one_file "a.wav" size) "a.wav" = Ok "549755813889"
  /\ _estimate_duration (one_file "a.wav" size) "a.wav" <> Ok (str_of_Z (size / 32000)).
Proof. vm_compute. repeat split; congruence. Qed.

(** ** The error-code table *)

Lemma table_lookup_none (k : Z) (table : list (Z * string)) :
  ~ In k (map fst table) -> table_lookup k table = None.
Proof.
  induction table as [| [k' d] rest IH]; intros Hnot; [reflexivity |].
  cbn in *. destruct (Z.eqb_spec k k') as [-> | _].
  - exfalso. apply Hnot. now left.
  - apply IH. intros Hin. apply Hnot. now right.
Qed.

(** C9 (amended).  The message of an API error is resolved through the
    fixed table: code 10006 resolves to the table's entry for it, the
    string "无效的签名" ("invalid signature"), every code that is not a
    key of the table resolves to "未知错误" ("unknown error"), and the
    exception [upload_file] raises for a body with application code
    10006 carries that description and the code. *)
Theorem error_code_description (code : Z) (self : LFASRClient) (fs : filesystem)
    (file_path : string) (size : Z) :
  ~ In code (map fst ERROR_CODES) ->
  fs file_path = Some size ->
  ERROR_CODES_get (PInt 10006) "未知错误" = Ok "无效的签名"
  /\ ERROR_CODES_get (PInt code) "未知错误" = Ok "未知错误"
  /\ snd (upload_file self fs file_path
            (Ok (mkResponse 200 (Ok (PDict [("code", PInt 10006)])))))
     = Raise (Exc Exception_ "API错误: 无效的签名 (code: 10006)").
Proof.
  intros Hnot Hfile. split; [reflexivity |]. split.
  - unfold ERROR_CODES_get. cbn [int_key bind].
    now rewrite (table_lookup_none code ERROR_CODES Hnot).
  - unfold upload_file, os_path_exists, _estimate_duration, os_path_getsize.
    rewrite Hfile. reflexivity.
Qed.

Lemma error_code_description_witness :
  ERROR_CODES_get (PInt 10006) "未知错误" = Ok "无效的签名"
  /\ ERROR_CODES_get (PInt 99999) "未知错误" = Ok "未知错误"
  /\ snd (upload_file client_a (one_file "a.wav" 32000) "a.wav"
            (Ok (mkResponse 200 (Ok (PDict [("code", PInt 10006)])))))
     = Raise (Exc Exception_ "API错误: 无效的签名 (code: 10006)").
Proof.
  apply (error_code_description 99999 client_a (one_file "a.wav" 32000) "a.wav" 32000).
  - cbn. intros H. repeat (destruct H as [H | H]; [discriminate H |]). exact H.
  - reflexivity.
Defined.

(** C9, as stated, fails: the description of code 10006 is not the
    English text. *)
Lemma error_code_description_not_english :
  ERROR_CODES_get (PInt 10006) "未知错误" = Ok "无效的签名"
  /\ ERROR_CODES_get (PInt 10006) "未知错误" <> Ok "invalid signature".
Proof. vm_compute. split; congruence. Qed.

(** ** One polling attempt *)

Lemma getitem_field (v : pyval) (k : string) :
  match py_getitem v k with
  | Ok x => field v k = Some x
  | Raise e => field v k = None /\ (exc_cls e = KeyError_ \/ exc_cls e = TypeError_)
  end.
Proof.
  destruct v; cbn; auto. destruct (assoc k entries); cbn; auto.
Qed.

Lemma get_field (v : pyval) (k : string) (default : pyval) :
  match py_get v k default with
  | Ok x => field v k = Some x \/ (field v k = None /\ x = default)
  | Raise _ => field v k = None
  end.
Proof.
  destruct v; cbn; auto. destruct (assoc k entries); cbn; auto.
Qed.

Lemma py_eq_int_inj (v : pyval) (n m : Z) :
  py_eq_int v n = true -> py_eq_int v m = true -> n = m.
Proof. destruct v; cbn; try discriminate; lia. Qed.

Ltac step_getitem v k :=
  let H := fresh "Hget" in
  pose proof (getitem_field v k) as H;
  destruct (py_getitem v k); cbn [bind];
  [ try rewrite H | destruct H as [H _]; try rewrite H ].

(** The polling step follows what the attempt sees: it returns the body
    on a complete order, and otherwise sleeps and goes on, with the
    counter incremented on a counted attempt and on status 5. *)
Lemma poll_step_observe (attempts : Z) (reply : res response) :
  let o := observe reply in
  (is_complete o = true ->
   exists response body,
     reply = Ok response /\ json response = Ok body /\
     poll_step attempts reply = Return_ body)
  /\ (is_complete o = false ->
      poll_step attempts reply =
      SleepContinue (if counted o || is_failed o then attempts + 1 else attempts)).
Proof.
  unfold poll_step, poll_try, observe.
  destruct reply as [response | e]; cbn [bind]; [| cbn; split; [discriminate | reflexivity]].
  destruct (status_code response =? 200); cbn [negb];
    [| cbn; split; [discriminate | reflexivity]].
  destruct (json response) as [body | e] eqn:Ejson; cbn [bind];
    [| cbn; split; [discriminate | reflexivity]].
  pose proof (get_field body "code" PNone) as Hcode.
  destruct (py_get body "code" PNone) as [code |]; cbn [bind].
  2:{ rewrite Hcode. cbn. split; [discriminate | reflexivity]. }
  destruct Hcode as [Hcode | [Hcode ->]].
  2:{ rewrite Hcode. cbn. step_getitem body "code"; [congruence |].
      split; [discriminate | reflexivity]. }
  rewrite Hcode.
  destruct (py_eq_int code 0) eqn:Ezero; cbn [negb].
  2:{ step_getitem body "code".
      - destruct (ERROR_CODES_get a "未知错误"); cbn; split; (discriminate || reflexivity).
      - cbn. split; [discriminate | reflexivity]. }
  unfold status_field.
  step_getitem body "content"; [| cbn; split; [discriminate | reflexivity]].
  step_getitem a "orderInfo"; [| cbn; split; [discriminate | reflexivity]].
  step_getitem a0 "status"; [| cbn; split; [discriminate | reflexivity]].
  cbn [is_complete counted is_failed in_progress].
  destruct (py_eq_int a1 4) eqn:E4.
  - split; [intros _; now exists response, body | discriminate].
  - split; [discriminate | intros _].
    unfold py_in_ints. cbn [existsb]. rewrite E4.
    destruct (py_eq_int a1 0) eqn:E0, (py_eq_int a1 1) eqn:E1,
             (py_eq_int a1 3) eqn:E3, (py_eq_int a1 5) eqn:E5;
      cbn; try reflexivity; exfalso;
      match goal with
      | H1 : py_eq_int ?v ?n = true, H2 : py_eq_int ?v ?m = true |- _ =>
          pose proof (py_eq_int_inj _ _ _ H1 H2); lia
      end.
Qed.

(** ** The polling loop *)

Section PollLoop.

Variable self : LFASRClient.
Variable request : http_request.

Lemma poll_loop_unfold (attempts : Z) (script : list (res response)) :
  poll_loop self request attempts script =
  if attempts <? max_retry self then
    match script with
    | [] => mkRun [] attempts Pending
    | reply :: rest =>
        match poll_step attempts reply with
        | Return_ result => mkRun [Get request] attempts (Returned result)
        | SleepContinue attempts' =>
            after [Get request; Sleep (poll_interval self)]
                  (poll_loop self request attempts' rest)
        end
    end
  else mkRun [] attempts (Raised timeout_error).
Proof. destruct script; reflexivity. Qed.

(** The loop ends in one of three ways only; no exception other than
    the timeout leaves it. *)
Lemma poll_loop_result (script : list (res response)) (attempts : Z) :
  let r := poll_loop self request attempts script in
  (exists body, ending r = Returned body)
  \/ ending r = Raised timeout_error
  \/ ending r = Pending.
Proof.
  revert attempts. induction script as [| reply rest IH]; intros a;
    rewrite poll_loop_unfold; cbv zeta.
  - destruct (a <? max_retry self); cbn; auto.
  - destruct (a <? max_retry self); cbn; auto.
    destruct (poll_step a reply) as [body | a']; cbn; [eauto | apply IH].
Qed.

(** Every query of the loop is the one request built before it, and
    every wait lasts [poll_interval]. *)
Lemma poll_loop_events (script : list (res response)) (attempts : Z) :
  let r := poll_loop self request attempts script in
  Forall (eq request) (queries (events r))
  /\ Forall (eq (poll_interval self)) (sleeps (events r)).
Proof.
  revert attempts. induction script as [| reply rest IH]; intros a;
    rewrite poll_loop_unfold; cbv zeta.
  - destruct (a <? max_retry self); cbn; auto.
  - destruct (a <? max_retry self); cbn; auto.
    destruct (poll_step a reply) as [body | a']; cbn; auto.
    destruct (IH a') as [Hq Hs]. auto.
Qed.

End PollLoop.

Lemma complete_not_incremented (reply : res response) :
  is_complete (observe reply) = true -> increments reply = false.
Proof.
  unfold increments. destruct (observe reply) as [| | | | status]; cbn; try discriminate.
  intros E4. rewrite E4.
  destruct (py_eq_int status 0) eqn:E0, (py_eq_int status 1) eqn:E1,
           (py_eq_int status 3) eqn:E3, (py_eq_int status 5) eqn:E5;
    cbn; try reflexivity; exfalso;
    match goal with
    | H1 : py_eq_int ?v ?n = true, H2 : py_eq_int ?v ?m = true |- _ =>
        pose proof (py_eq_int_inj _ _ _ H1 H2); lia
    end.
Qed.

Section PollCount.

Variable self : LFASRClient.
Variable request : http_request.

(** The counter at the end is the counter at the start plus the number
    of incrementing attempts among the replies the loop queried; it
    never passes [max_retry], and reaching [max_retry] is exactly the
    timeout. *)
Lemma poll_loop_attempts (script : list (res response)) (a : Z) :
  a <= max_retry self ->
  let r := poll_loop self request a script in
  let n := List.length (queries (events r)) in
  attempts r = a + count_where increments (firstn n script)
  /\ attempts r <= max_retry self
  /\ (ending r = Raised timeout_error <-> attempts r = max_retry self).
Proof.
  revert a. induction script as [| reply rest IH]; intros a Ha;
    rewrite poll_loop_unfold; cbv zeta.
  - destruct (Z.ltb_spec a (max_retry self)); unfold count_where; cbn;
      repeat split; try lia; try discriminate; intros; lia.
  - destruct (Z.ltb_spec a (max_retry self)) as [Hlt | Hge].
    2:{ unfold count_where; cbn. repeat split; try lia; intros; lia. }
    destruct (poll_step_observe a reply) as [Hdone Hgo].
    destruct (is_complete (observe reply)) eqn:Ec.
    + destruct (Hdone eq_refl) as (response & body & _ & _ & ->). cbn.
      unfold count_where. cbn. rewrite (complete_not_incremented reply Ec). cbn.
      repeat split; try lia; try discriminate; intros; lia.
    + rewrite (Hgo eq_refl). fold (increments reply).
      set (a' := if increments reply then a + 1 else a).
      assert (Ha' : a' <= max_retry self) by (subst a'; destruct (increments reply); lia).
      specialize (IH a' Ha'). cbv zeta in IH. cbn.
      destruct IH as (Hcount & Hle & Hiff).
      repeat split; try assumption; try apply Hiff.
      rewrite Hcount. unfold count_where. subst a'. cbn.
      destruct (increments reply); cbn [List.length]; lia.
Qed.


End PollCount.

(** ** [get_transcription_result] as a whole *)

Lemma get_transcription_result_valid (self : LFASRClient) (now : Z)
    (upload_result order_id : pyval) (script : list (res response)) :
  order_id_field upload_result = Some order_id ->
  get_transcription_result self now upload_result script =
  (update_timestamp now self,
   poll_loop (update_timestamp now self)
             (poll_request (update_timestamp now self) order_id) 0 script).
Proof.
  unfold order_id_field, get_transcription_result. intros Hid.
  pose proof (getitem_field upload_result "content") as Hc.
  destruct (py_getitem upload_result "content") as [content | e]; cbn [bind].
  - rewrite Hc in Hid.
    pose proof (getitem_field content "orderId") as Ho.
    destruct (py_getitem content "orderId") as [oid | e]; cbn [bind].
    + rewrite Ho in Hid. injection Hid as ->. reflexivity.
    + destruct Ho as [Ho _]. congruence.
  - destruct Hc as [Hc _]. rewrite Hc in Hid. discriminate.
Qed.

Lemma get_transcription_result_invalid (self : LFASRClient) (now : Z)
    (upload_result : pyval) (script : list (res response)) :
  order_id_field upload_result = None ->
  exists e,
    (exc_cls e = KeyError_ \/ exc_cls e = TypeError_)
    /\ get_transcription_result self now upload_result script =
       (update_timestamp now self, mkRun [] 0 (Raised e)).
Proof.
  unfold order_id_field, get_transcription_result. intros Hid.
  pose proof (getitem_field upload_result "content") as Hc.
  destruct (py_getitem upload_result "content") as [content | e]; cbn [bind].
  - rewrite Hc in Hid.
    pose proof (getitem_field content "orderId") as Ho.
    destruct (py_getitem content "orderId") as [oid | e]; cbn [bind].
    + congruence.
    + destruct Ho as [_ Ho]. now exists e.
  - destruct Hc as [_ Hc]. now exists e.
Qed.

(** The ways a call can end. *)
Lemma get_transcription_result_ends (self : LFASRClient) (now : Z)
    (upload_result : pyval) (script : list (res response)) :
  let r := snd (get_transcription_result self now upload_result script) in
  (exists body, ending r = Returned body)
  \/ ending r = Raised timeout_error
  \/ ending r = Pending
  \/ (exists e, ending r = Raised e /\ (exc_cls e = KeyError_ \/ exc_cls e = TypeError_)).
Proof.
  cbv zeta. destruct (order_id_field upload_result) as [order_id |] eqn:Hid.
  - rewrite (get_transcription_result_valid _ _ _ _ _ Hid). cbn [snd].
    destruct (poll_loop_result (update_timestamp now self)
                (poll_request (update_timestamp now self) order_id) script 0)
      as [H | [H | H]]; auto.
  - destruct (get_transcription_result_invalid self now _ script Hid) as (e & He & ->).
    cbn. right. right. right. now exists e.
Qed.

(** C1.  The claim does not hold of the code: the exception raised on
    status 5 is raised inside the [try] block and caught by its own
    [except Exception] handler, so the attempt is counted and polling
    goes on.  No call ever ends with that exception; an attempt that
    sees status 5 continues with the counter incremented; three such
    replies under [max_retry = 3] give three queries and the timeout;
    and a status 5 followed by a status 4 returns the result. *)
Theorem status5_is_retried :
  (forall self now upload_result script,
     ending (snd (get_transcription_result self now upload_result script))
     <> Raised transcription_failed)
  /\ (forall a, poll_step a (status_reply 5) = SleepContinue (a + 1))
  /\ (let r := snd (get_transcription_result client_a 1512041900 (upload_body "abc123")
                      [status_reply 5; status_reply 5; status_reply 5]) in
      ending r = Raised timeout_error
      /\ List.length (queries (events r)) = 3%nat
      /\ attempts r = 3)
  /\ (let r := snd (get_transcription_result client_a 1512041900 (upload_body "abc123")
                      [status_reply 5; status_reply 4]) in
      ending r = Returned (status_body 4)
      /\ List.length (queries (events r)) = 2%nat).
Proof.
  split; [| split; [| split]].
  - intros self now upload_result script.
    destruct (get_transcription_result_ends self now upload_result script)
      as [[body H] | [H | [H | (e & H & Hcls)]]]; rewrite H; try discriminate.
    intros E. injection E as ->. cbn in Hcls. destruct Hcls; discriminate.
  - reflexivity.
  - vm_compute. repeat split.
  - vm_compute. repeat split.
Qed.

(** The scripted runs of the specification: statuses 1, 1, 3, 4 return
    after four queries with the counter untouched; a failing transport
    on every call exhausts [max_retry = 3] after three queries. *)
Example poll_busy_then_complete :
  let r := snd (get_transcription_result client_a 1512041900 (upload_body "abc123")
                  [status_reply 1; status_reply 1; status_reply 3; status_reply 4]) in
  ending r = Returned (status_body 4)
  /\ List.length (queries (events r)) = 4%nat
  /\ sleeps (events r) = [5; 5; 5]
  /\ attempts r = 0.
Proof. vm_compute. repeat split. Qed.

Example poll_transport_errors :
  let down := Raise (Exc RequestException_ "Connection refused") in
  let r := snd (get_transcription_result client_a 1512041900 (upload_body "abc123")
                  [down; down; down; status_reply 4]) in
  ending r = Raised timeout_error
  /\ List.length (queries (events r)) = 3%nat
  /\ attempts r = 3.
Proof. vm_compute. repeat split. Qed.

(** C2 (amended).  [get_transcription_result] signs once, on entry,
    with the clock as it reads then: the client leaves the call with
    that timestamp and its signature, and every status query of the call
    carries that one pair, whatever timestamp and signature the client
    held before the call.  When the client's earlier timestamp was taken
    at another second, no query carries the earlier pair. *)
Theorem poll_requests_signed_on_entry (self : LFASRClient) (now : Z)
    (upload_result : pyval) (script : list (res response)) :
  let self' := fst (get_transcription_result self now upload_result script) in
  let r := snd (get_transcription_result self now upload_result script) in
  let fresh_ts := str_of_Z now in
  let fresh_signa := sign (appid self) (secret_key self) fresh_ts in
  ts self' = fresh_ts
  /\ signa self' = fresh_signa
  /\ Forall (fun q => credentials q = (Some (PStr fresh_ts), Some (PStr fresh_signa)))
            (queries (events r))
  /\ (forall earlier,
        ts self = str_of_Z earlier -> earlier <> now ->
        Forall (fun q => credentials q <> (Some (PStr (ts self)), Some (PStr (signa self))))
               (queries (events r))).
Proof.
  cbv zeta.
  assert (Hall : Forall (fun q => credentials q
                                  = (Some (PStr (str_of_Z now)),
                                     Some (PStr (sign (appid self) (secret_key self)
                                                      (str_of_Z now)))))
                   (queries (events (snd (get_transcription_result self now upload_result
                                            script))))).
  { destruct (order_id_field upload_result) as [order_id |] eqn:Hid.
    - rewrite (get_transcription_result_valid _ _ _ _ _ Hid). cbn [snd].
      destruct (poll_loop_events (update_timestamp now self)
                  (poll_request (update_timestamp now self) order_id) script 0) as [Hq _].
      eapply Forall_impl; [| exact Hq]. intros q <-. reflexivity.
    - destruct (get_transcription_result_invalid self now _ script Hid) as (e & _ & ->).
      constructor. }
  split; [| split; [| split; [exact Hall |]]].
  - destruct (order_id_field upload_result) as [order_id |] eqn:Hid.
    + now rewrite (get_transcription_result_valid _ _ _ _ _ Hid).
    + now destruct (get_transcription_result_invalid self now _ script Hid) as (e & _ & ->).
  - destruct (order_id_field upload_result) as [order_id |] eqn:Hid.
    + now rewrite (get_transcription_result_valid _ _ _ _ _ Hid).
    + now destruct (get_transcription_result_invalid self now _ script Hid) as (e & _ & ->).
  - intros earlier Hts Hne. eapply Forall_impl; [| exact Hall].
    intros q Hq Heq. rewrite Hq, Hts in Heq. injection Heq as Heq _.
    apply str_of_Z_inj in Heq. congruence.
Qed.

Lemma poll_requests_signed_on_entry_witness :
  let r := snd (get_transcription_result client_a 1512041900 (upload_body "abc123")
                  [status_reply 1; status_reply 4]) in
  List.length (queries (events r)) = 2%nat
  /\ Forall (fun q =>
               credentials q
               = (Some (PStr "1512041900"),
                  Some (PStr (sign "595f23df" "d9f4aa7ea6d94faca62cd88a28fd5234"
                                   "1512041900"))))
            (queries (events r))
  /\ Forall (fun q =>
               credentials q
               <> (Some (PStr "1512041814"), Some (PStr "IrrzsJeOFk1NGfJHW6SkHUoN9CU=")))
            (queries (events r)).
Proof.
  destruct (poll_requests_signed_on_entry client_a 1512041900 (upload_body "abc123")
              [status_reply 1; status_reply 4]) as (_ & _ & Hall & Hfresh).
  cbv zeta. split; [reflexivity | split; [exact Hall |]].
  apply (Hfresh 1512041814); [reflexivity | lia].
Defined.

(** C2, as stated, fails: the two status queries of one call carry the
    same timestamp and signature, and when the clock still reads the
    second at which the client was created, they carry the pair of the
    upload request too. *)
Lemma poll_requests_share_signature :
  let polls now :=
    queries (events (snd (get_transcription_result client_a now (upload_body "abc123")
                            [status_reply 1; status_reply 4]))) in
  let uploads :=
    fst (upload_file client_a (one_file "a.wav" 32000) "a.wav"
           (Ok (mkResponse 200 (Ok (upload_body "abc123"))))) in
  List.length (polls 1512041900) = 2%nat
  /\ ~ NoDup (map credentials (polls 1512041900))
  /\ (exists post get,
        In (Post post "a.wav") uploads /\ In get (polls 1512041814)
        /\ credentials get = credentials post).
Proof.
  cbv zeta. split; [reflexivity |]. split.
  - vm_compute. intros H. inversion H as [| ? ? Hnot _]. apply Hnot. now left.
  - eexists. eexists. split; [left; reflexivity |]. split; [left; reflexivity |].
    vm_compute. reflexivity.
Qed.









(** ** [upload_file] *)

Lemma upload_file_sent (self : LFASRClient) (fs : filesystem) (file_path : string)
    (size : Z) (reply : res response) :
  fs file_path = Some size ->
  upload_file self fs file_path reply =
  ([Post (mkRequest (lfasr_host ++ api_upload)%string
            [ ("appId", PStr (appid self));
              ("signa", PStr (signa self));
              ("ts", PStr (ts self));
              ("fileSize", PInt size);
              ("fileName", PStr (os_path_basename file_path));
              ("duration", PStr (str_of_Z (py_int_truediv size 32000))) ])
         file_path],
   snd (upload_file self fs file_path reply)).
Proof.
  intros Hfile. unfold upload_file, os_path_exists, _estimate_duration, os_path_getsize.
  rewrite Hfile. reflexivity.
Qed.

(** C6 (amended).  For a file that exists and a response of the
    service, [upload_file] raises a different exception for each of the
    three failures of the response: [Exception("上传失败 HTTP <status>")]
    when the HTTP status is not 200 (so whenever it is not 2xx), the
    decoder's own exception when the body cannot be parsed, and
    [Exception("API错误: <description> (code: <code>)")] when the
    application code is not 0, the description being the table's.  When
    it returns, it returns the whole parsed body of a 200 response with
    application code 0, in which [content.orderId] holds the order
    identifier; and it does return on every such response. *)
Theorem upload_file_outcomes (self : LFASRClient) (fs : filesystem) (file_path : string)
    (size : Z) (response : response) :
  fs file_path = Some size ->
  let out := snd (upload_file self fs file_path (Ok response)) in
  let transport := Exc Exception_ ("上传失败 HTTP " ++ str_of_Z (status_code response))%string in
  let api code description :=
    Exc Exception_ ("API错误: " ++ description ++ " (code: " ++ py_str code ++ ")")%string in
  (status_code response <> 200 -> out = Raise transport)
  /\ (forall e, status_code response = 200 -> json response = Raise e -> out = Raise e)
  /\ (forall body code description,
        status_code response = 200 -> json response = Ok body ->
        field body "code" = Some code -> py_eq_int code 0 = false ->
        ERROR_CODES_get code "未知错误" = Ok description ->
        out = Raise (api code description)
        /\ api code description <> transport)
  /\ (forall e, exc_cls e = JSONDecodeError_ ->
        e <> transport /\ forall code description, e <> api code description)
  /\ (forall body,
        out = Ok body ->
        status_code response = 200 /\ json response = Ok body
        /\ (exists code, field body "code" = Some code /\ py_eq_int code 0 = true)
        /\ (exists order_id, order_id_field body = Some order_id))
  /\ (forall body code order_id,
        status_code response = 200 -> json response = Ok body ->
        field body "code" = Some code -> py_eq_int code 0 = true ->
        order_id_field body = Some order_id ->
        out = Ok body).
Proof.
  intros Hfile. cbv zeta.
  unfold upload_file, os_path_exists, _estimate_duration, os_path_getsize.
  rewrite Hfile. cbn [negb bind snd].
  split; [| split; [| split; [| split; [| split]]]].
  - intros Hne. destruct (Z.eqb_spec (status_code response) 200); [contradiction |].
    reflexivity.
  - intros e -> ->. reflexivity.
  - intros body code description -> -> Hcode Hnz Hdesc. cbn [Z.eqb Pos.eqb negb bind].
    destruct body; try discriminate Hcode. cbn in Hcode. cbn [py_get py_getitem].
    rewrite Hcode. cbn [bind]. rewrite Hnz. cbn [negb bind]. rewrite Hdesc. cbn [bind].
    split; [reflexivity |]. cbn. congruence.
  - intros e Hcls. split; [| intros code description]; intros ->; discriminate Hcls.
  - intros body.
    destruct (Z.eqb_spec (status_code response) 200) as [E200 | _]; [| discriminate].
    cbn [negb]. destruct (json response) as [body' | e]; [| discriminate]. cbn [bind].
    pose proof (get_field body' "code" PNone) as Hcode.
    destruct (py_get body' "code" PNone) as [code |]; [| discriminate]. cbn [bind].
    destruct (py_eq_int code 0) eqn:Ezero; cbn [negb].
    2:{ destruct (py_getitem body' "code"); [| discriminate]. cbn [bind].
        destruct (ERROR_CODES_get a "未知错误"); discriminate. }
    unfold order_id_field.
    step_getitem body' "content"; [| discriminate].
    step_getitem a "orderId"; [| discriminate].
    intros E. injection E as <-.
    split; [exact E200 | split; [reflexivity | split]];
      [| exists a0; rewrite Hget; exact Hget0].
    destruct Hcode as [Hcode | [_ ->]]; [now exists code | discriminate Ezero].
  - intros body code order_id -> -> Hcode Hz. unfold order_id_field.
    cbn [Z.eqb Pos.eqb negb bind].
    destruct body; try discriminate Hcode. cbn in Hcode. cbn [py_get].
    rewrite Hcode. cbn [bind]. rewrite Hz. cbn [negb field py_getitem].
    destruct (assoc "content" entries) as [content |]; [| discriminate]. cbn [bind].
    destruct content; try discriminate. cbn [field py_getitem].
    destruct (assoc "orderId" entries0); [reflexivity | discriminate].
Qed.

Lemma upload_file_outcomes_witness :
  let upload response :=
    snd (upload_file client_a (one_file "/tmp/a.wav" 32000) "/tmp/a.wav" (Ok response)) in
  upload (mkResponse 503 (Ok (upload_body "abc123")))
  = Raise (Exc Exception_ "上传失败 HTTP 503")
  /\ upload (mkResponse 200 (Raise (Exc JSONDecodeError_ "Expecting value")))
     = Raise (Exc JSONDecodeError_ "Expecting value")
  /\ upload (mkResponse 200 (Ok (PDict [("code", PInt 10007)])))
     = Raise (Exc Exception_ "API错误: 签名过期 (code: 10007)")
  /\ upload (mkResponse 200 (Ok (upload_body "abc123"))) = Ok (upload_body "abc123").
Proof.
  cbv zeta. split; [| split; [| split]].
  - destruct (upload_file_outcomes client_a (one_file "/tmp/a.wav" 32000) "/tmp/a.wav" 32000
                (mkResponse 503 (Ok (upload_body "abc123"))) eq_refl) as (H & _).
    apply H. cbn. lia.
  - destruct (upload_file_outcomes client_a (one_file "/tmp/a.wav" 32000) "/tmp/a.wav" 32000
                (mkResponse 200 (Raise (Exc JSONDecodeError_ "Expecting value"))) eq_refl)
      as (_ & H & _).
    apply H; reflexivity.
  - destruct (upload_file_outcomes client_a (one_file "/tmp/a.wav" 32000) "/tmp/a.wav" 32000
                (mkResponse 200 (Ok (PDict [("code", PInt 10007)]))) eq_refl)
      as (_ & _ & H & _).
    apply (H (PDict [("code", PInt 10007)]) (PInt 10007) "签名过期"); reflexivity.
  - destruct (upload_file_outcomes client_a (one_file "/tmp/a.wav" 32000) "/tmp/a.wav" 32000
                (mkResponse 200 (Ok (upload_body "abc123"))) eq_refl)
      as (_ & _ & _ & _ & _ & H).
    apply (H (upload_body "abc123") (PInt 0) (PStr "abc123")); reflexivity.
Defined.

(** C6, as stated, fails on its last part: what [upload_file] returns
    for a successful upload is the parsed response, not the order
    identifier inside it. *)
Lemma upload_file_returns_response :
  let out :=
    snd (upload_file client_a (one_file "/tmp/a.wav" 32000) "/tmp/a.wav"
           (Ok (mkResponse 200 (Ok (upload_body "abc123"))))) in
  out = Ok (upload_body "abc123") /\ out <> Ok (PStr "abc123").
Proof. vm_compute. split; [reflexivity | discriminate]. Qed.

Example upload_request_sent :
  fst (upload_file client_a (one_file "/tmp/a.wav" 32000) "/tmp/a.wav"
         (Ok (mkResponse 200 (Ok (upload_body "abc123")))))
  = [Post (mkRequest "https://raasr.xfyun.cn/v2/api/upload"
             [ ("appId", PStr "595f23df");
               ("signa", PStr "IrrzsJeOFk1NGfJHW6SkHUoN9CU=");
               ("ts", PStr "1512041814");
               ("fileSize", PInt 32000);
               ("fileName", PStr "a.wav");
               ("duration", PStr "1") ])
          "/tmp/a.wav"].
Proof. vm_compute. reflexivity. Qed.

(** ** [extract_transcript_text] *)

Lemma py_join_strings (tokens : list string) :
  py_join (map PStr tokens) = Ok (concatenation tokens).
Proof.
  induction tokens as [| t rest IH]; [reflexivity |].
  cbn [map py_join]. rewrite IH. reflexivity.
Qed.

Section ExtractionProofs.

Variable json_loads : string -> res pyval.

Lemma for_each_appends walk item items tokens segments :
  appends walk item ->
  Forall2 item items tokens ->
  for_each items walk segments = Ok (segments ++ map PStr (List.concat tokens)).
Proof.
  intros Hwalk Hitems. revert segments.
  induction Hitems as [| v ts items tokens Hv _ IH]; intros segments; cbn.
  - now rewrite app_nil_r.
  - rewrite (Hwalk v ts segments Hv). cbn [bind]. rewrite IH.
    now rewrite map_app, app_assoc.
Qed.

Lemma walk_cw_appends : appends walk_cw word_tokens.
Proof.
  intros v tokens segments Hv. destruct Hv as [entries w Hw | entries Hw];
    unfold walk_cw; cbn; rewrite Hw; cbn.
  - reflexivity.
  - now rewrite app_nil_r.
Qed.

(** A loop over a list-valued field appends the tokens under it. *)
Lemma list_field_appends walk item k :
  appends walk item ->
  appends (fun v segments => xs <- py_get v k (PList []) ;; for_in xs walk segments)
          (list_field_tokens item k).
Proof.
  intros Hwalk v tokens segments Hv.
  destruct Hv as [entries items tokens Hk Hitems | entries Hk]; cbn; rewrite Hk; cbn.
  - now apply for_each_appends with (item := item).
  - now rewrite app_nil_r.
Qed.

Lemma walk_ws_appends : appends walk_ws ws_tokens.
Proof. apply (list_field_appends walk_cw word_tokens "cw"), walk_cw_appends. Qed.

Lemma walk_rt_appends : appends walk_rt rt_tokens.
Proof. apply (list_field_appends walk_ws ws_tokens "ws"), walk_ws_appends. Qed.

Lemma walk_sentence_appends : appends walk_sentence sentence_tokens.
Proof. apply (list_field_appends walk_cw word_tokens "words"), walk_cw_appends. Qed.

Lemma walk_lattice_appends : appends walk_lattice lattice_tokens.
Proof.
  intros v tokens segments Hv.
  destruct Hv as [entries best st tokens Hb Hst Hrt | entries best Hb Hst | entries Hb];
    unfold walk_lattice; cbn; rewrite Hb; cbn; try rewrite Hst; cbn.
  - apply (list_field_appends walk_rt rt_tokens "rt" walk_rt_appends st tokens segments Hrt).
  - now rewrite app_nil_r.
  - now rewrite app_nil_r.
Qed.

Lemma extract_body_order_result result text :
  order_result_field result = Some (PStr text) ->
  extract_body json_loads result =
  order_result <- json_loads text ;;
  has_lattice <- py_contains order_result "lattice" ;;
  if has_lattice : bool then
    lattices <- py_getitem order_result "lattice" ;;
    segments <- for_in lattices walk_lattice [] ;;
    py_join segments
  else
    has_sentences <- py_contains order_result "sentences" ;;
    if has_sentences : bool then
      sentences <- py_getitem order_result "sentences" ;;
      segments <- for_in sentences walk_sentence [] ;;
      py_join segments
    else Ok unrecognized_sentinel.
Proof.
  unfold order_result_field, extract_body. intros Hfield.
  pose proof (getitem_field result "content") as Hc.
  destruct (py_getitem result "content") as [content | e]; cbn [bind].
  - rewrite Hc in Hfield.
    pose proof (getitem_field content "orderResult") as Ho.
    destruct (py_getitem content "orderResult") as [v | e]; cbn [bind].
    + rewrite Ho in Hfield. injection Hfield as ->. reflexivity.
    + destruct Ho as [Ho _]. congruence.
  - destruct Hc as [Hc _]. rewrite Hc in Hfield. discriminate.
Qed.

End ExtractionProofs.

(** C4.  On a result whose embedded [orderResult] document has a
    [lattice] key, [extract_transcript_text] returns the [w] fields
    reached through [lattice[] -> json_1best.st.rt[] -> ws[] -> cw[]],
    concatenated in traversal order with nothing in between; on a
    document with a [sentences] key instead, it returns the [w] fields
    reached through [sentences[] -> words[]], concatenated likewise. *)
Theorem extract_concatenates (json_loads : string -> res pyval) (result : pyval)
    (text : string) (order_result : pyval) (tokens : list string) :
  order_result_field result = Some (PStr text) ->
  json_loads text = Ok order_result ->
  lattice_document order_result tokens \/ sentences_document order_result tokens ->
  extract_transcript_text json_loads result = Ok (concatenation tokens).
Proof.
  intros Hfield Hloads Hdoc. unfold extract_transcript_text.
  rewrite (extract_body_order_result json_loads result text Hfield), Hloads. cbn [bind].
  destruct Hdoc as [Hdoc | Hdoc].
  - destruct Hdoc as [entries items tokens Hl Hitems]. cbn. rewrite Hl. cbn.
    rewrite (for_each_appends walk_lattice lattice_tokens items tokens []
               walk_lattice_appends Hitems).
    cbn. now rewrite py_join_strings.
  - destruct Hdoc as [entries items tokens Hl Hs Hitems]. cbn. rewrite Hl, Hs. cbn.
    rewrite (for_each_appends walk_sentence sentence_tokens items tokens []
               walk_sentence_appends Hitems).
    cbn. now rewrite py_join_strings.
Qed.

(** C5 (amended).  [extract_transcript_text] returns a string on every
    input and never raises.  A result whose embedded document matches
    neither schema gives the sentinel "无法解析转写结果"; every
    exception raised while the result is decoded and walked is caught
    and gives a sentinel too, a different one: "提取文本内容失败". *)
Theorem extract_never_raises (json_loads : string -> res pyval) (result : pyval) :
  (exists transcript, extract_transcript_text json_loads result = Ok transcript)
  /\ (forall text order_result,
        order_result_field result = Some (PStr text) ->
        json_loads text = Ok order_result ->
        neither_schema order_result ->
        extract_transcript_text json_loads result = Ok unrecognized_sentinel)
  /\ (forall e,
        extract_body json_loads result = Raise e ->
        extract_transcript_text json_loads result = Ok failure_sentinel)
  /\ unrecognized_sentinel = "无法解析转写结果"
  /\ failure_sentinel = "提取文本内容失败".
Proof.
  split; [| split; [| split; [| split; reflexivity]]].
  - unfold extract_transcript_text, try_except.
    destruct (extract_body json_loads result); eauto.
  - intros text order_result Hfield Hloads (entries & -> & Hl & Hs).
    unfold extract_transcript_text.
    rewrite (extract_body_order_result json_loads result text Hfield), Hloads.
    cbn. rewrite Hl, Hs. reflexivity.
  - intros e He. unfold extract_transcript_text. rewrite He. reflexivity.
Qed.

Lemma list_field_present_eq item k entries items tokens all :
  assoc k entries = Some (PList items) ->
  Forall2 item items tokens ->
  all = List.concat tokens ->
  list_field_tokens item k (PDict entries) all.
Proof. intros Hk Hitems ->. now apply list_field_present with (items := items). Qed.

Lemma lattice_document_eq entries items tokens all :
  assoc "lattice" entries = Some (PList items) ->
  Forall2 lattice_tokens items tokens ->
  all = List.concat tokens ->
  lattice_document (PDict entries) all.
Proof. intros Hk Hitems ->. now apply lattice_document_intro with (items := items). Qed.

Lemma sentences_document_eq entries items tokens all :
  assoc "lattice" entries = None ->
  assoc "sentences" entries = Some (PList items) ->
  Forall2 sentence_tokens items tokens ->
  all = List.concat tokens ->
  sentences_document (PDict entries) all.
Proof. intros Hl Hk Hitems ->. now apply sentences_document_intro with (items := items). Qed.

(** Reads the tokens off a concrete document. *)
Ltac shape :=
  lazymatch goal with
  | |- Forall2 _ [] _ => apply Forall2_nil
  | |- Forall2 _ (_ :: _) _ => apply Forall2_cons; [shape | shape]
  | |- word_tokens _ _ =>
      first [ eapply word_with_w; reflexivity | eapply word_without_w; reflexivity ]
  | |- lattice_document _ _ =>
      eapply lattice_document_eq; [reflexivity | shape | reflexivity]
  | |- sentences_document _ _ =>
      eapply sentences_document_eq; [reflexivity | reflexivity | shape | reflexivity]
  | |- lattice_tokens _ _ =>
      first [ eapply lattice_full; [reflexivity | reflexivity | shape]
            | eapply lattice_without_st; reflexivity
            | eapply lattice_without_best; reflexivity ]
  | |- _ =>
      first [ eapply list_field_present_eq; [reflexivity | shape | reflexivity]
            | eapply list_field_absent; reflexivity ]
  end.

Example json_round_trip :
  json_loads_lite (json_dumps_lite lattice_sample) = Ok lattice_sample
  /\ json_loads_lite (json_dumps_lite sentences_sample) = Ok sentences_sample
  /\ json_loads_lite (json_dumps_lite (status_body 4)) = Ok (status_body 4).
Proof. vm_compute. repeat split. Qed.

Lemma extract_concatenates_witness :
  extract_transcript_text json_loads_lite (result_with lattice_sample) = Ok "今天天气"
  /\ extract_transcript_text json_loads_lite (result_with sentences_sample) = Ok "hello world".
Proof.
  assert (Hl : lattice_document lattice_sample ["今"; "天"; "天气"]) by shape.
  assert (Hs : sentences_document sentences_sample ["hello"; " "; "world"]) by shape.
  split.
  - exact (extract_concatenates json_loads_lite (result_with lattice_sample)
             (json_dumps_lite lattice_sample) lattice_sample ["今"; "天"; "天气"]
             eq_refl eq_refl (or_introl Hl)).
  - exact (extract_concatenates json_loads_lite (result_with sentences_sample)
             (json_dumps_lite sentences_sample) sentences_sample ["hello"; " "; "world"]
             eq_refl eq_refl (or_intror Hs)).
Defined.

Lemma extract_never_raises_witness :
  (exists transcript,
     extract_transcript_text json_loads_lite (result_with lattice_sample) = Ok transcript)
  /\ extract_transcript_text json_loads_lite (result_with (PDict [ ("words", PList []) ]))
     = Ok "无法解析转写结果"
  /\ extract_transcript_text json_loads_lite (result_with_text "not json")
     = Ok "提取文本内容失败".
Proof.
  split; [| split].
  - apply (extract_never_raises json_loads_lite (result_with lattice_sample)).
  - destruct (extract_never_raises json_loads_lite
                (result_with (PDict [ ("words", PList []) ]))) as (_ & H & _).
    apply (H (json_dumps_lite (PDict [ ("words", PList []) ]))
             (PDict [ ("words", PList []) ])); [reflexivity | reflexivity |].
    exists [ ("words", PList []) ]. repeat split.
  - destruct (extract_never_raises json_loads_lite (result_with_text "not json"))
      as (_ & _ & H & _).
    apply (H (Exc JSONDecodeError_ "Expecting value")). reflexivity.
Defined.

(** C5, as stated, fails on "the same sentinel": a document that matches
    neither schema and an exception while decoding or walking give two
    different strings. *)
Lemma extract_sentinels_differ :
  let neither := extract_transcript_text json_loads_lite (result_with (PDict [])) in
  let undecodable := extract_transcript_text json_loads_lite (result_with_text "not json") in
  let unwalkable :=
    extract_transcript_text json_loads_lite (result_with (PDict [ ("lattice", PInt 5) ])) in
  neither = Ok "无法解析转写结果"
  /\ undecodable = Ok "提取文本内容失败"
  /\ unwalkable = Ok "提取文本内容失败"
  /\ undecodable <> neither
  /\ unwalkable <> neither.
Proof. vm_compute. repeat split; congruence. Qed.

(** ** The whole flow on the scenario of the specification

    A 32000-byte file is uploaded with duration 1 and gets the order
    [abc123]; two polls see status 1 and the third status 4 with a
    lattice payload holding the token 测试: three queries, the counter
    at 0, and the transcript 测试. *)
Example end_to_end :
  let final :=
    result_with
      (PDict [ ("lattice",
                PList [ PDict [ ("json_1best",
                  PDict [ ("st",
                    PDict [ ("rt",
                      PList [ PDict [ ("ws",
                        PList [ PDict [ ("cw", PList [ word "测试" ]) ] ]) ] ]) ]) ]) ] ]) ]) in
  let uploaded :=
    upload_file client_a (one_file "/tmp/a.wav" 32000) "/tmp/a.wav"
      (Ok (mkResponse 200 (Ok (upload_body "abc123")))) in
  let polled :=
    snd (get_transcription_result client_a 1512041900 (upload_body "abc123")
           [status_reply 1; status_reply 1; Ok (mkResponse 200 (Ok final))]) in
  snd uploaded = Ok (upload_body "abc123")
  /\ map (fun q => assoc "orderId" (params q)) (queries (events polled))
     = [Some (PStr "abc123"); Some (PStr "abc123"); Some (PStr "abc123")]
  /\ ending polled = Returned final
  /\ attempts polled = 0
  /\ extract_transcript_text json_loads_lite final = Ok "测试".
Proof. vm_compute. repeat split. Qed.

(** * Further properties of the client *)

(** ** The polling loop, reply by reply *)

Lemma observe_status (reply : res response) (status : pyval) :
  observe reply = OrderStatus status ->
  exists response body code,
    reply = Ok response
    /\ status_code response = 200
    /\ json response = Ok body
    /\ field body "code" = Some code
    /\ py_eq_int code 0 = true
    /\ status_field body = Some status.
Proof.
  unfold observe. destruct reply as [response | e]; [| discriminate].
  destruct (Z.eqb_spec (status_code response) 200) as [E200 | _]; [| discriminate].
  destruct (json response) as [body | e] eqn:Ejson; [| discriminate].
  destruct (field body "code") as [code |] eqn:Ecode; [| discriminate].
  destruct (py_eq_int code 0) eqn:Ezero; [| discriminate].
  destruct (status_field body) as [st |] eqn:Est; [| discriminate].
  intros [= <-]. exists response, body, code. repeat split; auto.
Qed.

Lemma poll_step_return (a : Z) (reply : res response) (body : pyval) :
  poll_step a reply = Return_ body ->
  exists response code status,
    reply = Ok response
    /\ status_code response = 200
    /\ json response = Ok body
    /\ field body "code" = Some code /\ py_eq_int code 0 = true
    /\ status_field body = Some status /\ py_eq_int status 4 = true.
Proof.
  intros Hret. destruct (poll_step_observe a reply) as [Hdone Hgo].
  destruct (is_complete (observe reply)) eqn:Ec.
  - destruct (observe reply) as [| | | | status] eqn:Eo; try discriminate Ec.
    destruct (observe_status reply status Eo)
      as (response & body' & code & -> & E200 & Ejson & Ecode & Ezero & Est).
    destruct (Hdone eq_refl) as (response' & body'' & [= <-] & Ejson' & Hstep).
    rewrite Hstep in Hret. injection Hret as <-.
    assert (body'' = body') as -> by congruence.
    exists response, code, status. repeat split; auto.
  - rewrite (Hgo eq_refl) in Hret. discriminate.
Qed.

Lemma poll_step_sleep (a a' : Z) (reply : res response) :
  poll_step a reply = SleepContinue a' ->
  is_complete (observe reply) = false
  /\ a' = (if increments reply then a + 1 else a).
Proof.
  intros Hstep. destruct (poll_step_observe a reply) as [Hdone Hgo].
  destruct (is_complete (observe reply)) eqn:Ec.
  - destruct (Hdone eq_refl) as (? & ? & _ & _ & H). congruence.
  - rewrite (Hgo eq_refl) in Hstep. injection Hstep as <-. now split.
Qed.

Section PollRuns.

Variable self : LFASRClient.
Variable request : http_request.

(** The shape of the events: rounds of query and sleep, closed by one
    more query exactly when the loop returns; one reply is consumed per
    query. *)
Lemma poll_loop_rounds (script : list (res response)) (a : Z) :
  let r := poll_loop self request a script in
  exists n,
    events r = rounds request (poll_interval self) n
               ++ (if returned (ending r) then [Get request] else [])
    /\ List.length (queries (events r)) = (n + (if returned (ending r) then 1 else 0))%nat
    /\ sleeps (events r) = repeat (poll_interval self) n
    /\ (List.length (queries (events r)) <= List.length script)%nat.
Proof.
  revert a. induction script as [| reply rest IH]; intros a;
    rewrite poll_loop_unfold; cbv zeta.
  - exists 0%nat. destruct (a <? max_retry self); cbn; repeat split; lia.
  - destruct (a <? max_retry self); [| exists 0%nat; cbn; repeat split; lia].
    destruct (poll_step a reply) as [body | a'].
    + exists 0%nat. cbn. repeat split; lia.
    + destruct (IH a') as (n & Hev & Hq & Hs & Hlen). exists (S n).
      cbn [after events ending]. unfold rounds in *. cbn [repeat List.concat app].
      rewrite Hev. repeat split.
      * cbn [queries List.length]. rewrite <- Hev, Hq. lia.
      * cbn [sleeps]. rewrite <- Hev, Hs. reflexivity.
      * cbn [queries List.length]. rewrite <- Hev. lia.
Qed.

(** The reply that makes the loop return. *)
Lemma poll_loop_returned (script : list (res response)) (a : Z) (body : pyval) :
  let r := poll_loop self request a script in
  ending r = Returned body ->
  exists n response code status,
    List.length (queries (events r)) = S n
    /\ nth_error script n = Some (Ok response)
    /\ status_code response = 200
    /\ json response = Ok body
    /\ field body "code" = Some code /\ py_eq_int code 0 = true
    /\ status_field body = Some status /\ py_eq_int status 4 = true.
Proof.
  revert a. induction script as [| reply rest IH]; intros a;
    rewrite poll_loop_unfold; cbv zeta.
  - destruct (a <? max_retry self); discriminate.
  - destruct (a <? max_retry self); [| discriminate].
    destruct (poll_step a reply) as [body' | a'] eqn:Estep.
    + cbn. intros [= ->].
      destruct (poll_step_return a reply body Estep)
        as (response & code & status & -> & H).
      exists 0%nat, response, code, status. cbn. tauto.
    + cbn [after ending events]. intros Hend.
      destruct (IH a' Hend) as (n & response & code & status & Hq & Hnth & H).
      exists (S n), response, code, status. cbn. rewrite Hq. tauto.
Qed.


(** More replies do not change a run that has ended; a run that is
    still polling has consumed every reply and goes on with the next
    ones from the counter it has reached. *)
Lemma poll_loop_app (script more : list (res response)) (a : Z) :
  let r := poll_loop self request a script in
  (ending r <> Pending -> poll_loop self request a (script ++ more) = r)
  /\ (ending r = Pending ->
      poll_loop self request a (script ++ more)
      = after (events r) (poll_loop self request (attempts r) more)
      /\ List.length (queries (events r)) = List.length script).
Proof.
  revert a. induction script as [| reply rest IH]; intros a; cbv zeta.
  - cbn [app]. rewrite (poll_loop_unfold self request a []).
    destruct (a <? max_retry self) eqn:Ea; cbn.
    + split; [congruence | intros _]. split; [| reflexivity].
      now destruct (poll_loop self request a more).
    + split; [intros _ | discriminate]. rewrite poll_loop_unfold, Ea. reflexivity.
  - cbn [app]. rewrite !(poll_loop_unfold self request a (_ :: _)).
    destruct (a <? max_retry self); [| split; [reflexivity | discriminate]].
    destruct (poll_step a reply) as [body | a'];
      [split; [reflexivity | discriminate] |].
    destruct (IH a') as [Hdone Hgo]. cbn [after ending events attempts]. split.
    + intros Hend. now rewrite (Hdone Hend).
    + intros Hend. destruct (Hgo Hend) as [Happ Hlen]. rewrite Happ. split.
      * unfold after. reflexivity.
      * cbn. now rewrite Hlen.
Qed.

End PollRuns.

Lemma poll_loop_attempts_sleeps (self : LFASRClient) (request : http_request)
    (script : list (res response)) (a : Z) :
  let r := poll_loop self request a script in
  a <= attempts r <= a + Z.of_nat (List.length (sleeps (events r))).
Proof.
  revert a. induction script as [| reply rest IH]; intros a;
    rewrite poll_loop_unfold; cbv zeta.
  - destruct (a <? max_retry self); cbn; lia.
  - destruct (a <? max_retry self); [| cbn; lia].
    destruct (poll_step a reply) as [body | a'] eqn:Estep; [cbn; lia |].
    destruct (poll_step_sleep a a' reply Estep) as [_ ->].
    specialize (IH (if increments reply then a + 1 else a)). cbv zeta in IH.
    cbn [after attempts events sleeps app List.length].
    destruct (increments reply); lia.
Qed.



(** ** Calls of [get_transcription_result] *)

(** X1.  A result that [get_transcription_result] returns is the JSON
    body of the last reply it queried, a 200 response whose application
    code equals 0 and whose [content.orderInfo.status] equals 4. *)
Theorem returned_result_is_complete (self : LFASRClient) (now : Z)
    (upload_result : pyval) (script : list (res response)) (body : pyval) :
  let r := snd (get_transcription_result self now upload_result script) in
  ending r = Returned body ->
  exists n response code status,
    List.length (queries (events r)) = S n
    /\ nth_error script n = Some (Ok response)
    /\ status_code response = 200
    /\ json response = Ok body
    /\ field body "code" = Some code /\ py_eq_int code 0 = true
    /\ status_field body = Some status /\ py_eq_int status 4 = true.
Proof.
  cbv zeta. destruct (order_id_field upload_result) as [order_id |] eqn:Hid.
  - rewrite (get_transcription_result_valid _ _ _ _ _ Hid). cbn [snd].
    apply poll_loop_returned.
  - destruct (get_transcription_result_invalid self now _ script Hid) as (e & _ & ->).
    discriminate.
Qed.

Lemma returned_result_is_complete_witness :
  exists n response code status,
    List.length
      (queries (events (snd (get_transcription_result client_a 1512041900
                               (upload_body "abc123") sample_script_done)))) = S n
    /\ nth_error sample_script_done n = Some (Ok response)
    /\ status_code response = 200
    /\ json response = Ok (status_body 4)
    /\ field (status_body 4) "code" = Some code /\ py_eq_int code 0 = true
    /\ status_field (status_body 4) = Some status /\ py_eq_int status 4 = true.
Proof.
  apply (returned_result_is_complete client_a 1512041900 (upload_body "abc123")
           sample_script_done (status_body 4)).
  reflexivity.
Defined.




Lemma get_transcription_result_invalid_any (self : LFASRClient) (now : Z)
    (upload_result : pyval) (script script' : list (res response)) :
  order_id_field upload_result = None ->
  get_transcription_result self now upload_result script
  = get_transcription_result self now upload_result script'.
Proof.
  unfold order_id_field, get_transcription_result. intros Hid.
  pose proof (getitem_field upload_result "content") as Hc.
  destruct (py_getitem upload_result "content") as [content | e]; cbn [bind];
    [| reflexivity].
  rewrite Hc in Hid.
  pose proof (getitem_field content "orderId") as Ho.
  destruct (py_getitem content "orderId") as [oid | e]; cbn [bind];
    [congruence | reflexivity].
Qed.

(** X4.  Replies that would come after the end of a call do not change
    it: once a call has returned or raised on a script, it does the same
    on every longer script.  A call that is still polling has used every
    reply, one per query, and on a longer script its events start with
    the same ones. *)
Theorem later_replies_do_not_matter (self : LFASRClient) (now : Z)
    (upload_result : pyval) (script more : list (res response)) :
  let call s := get_transcription_result self now upload_result s in
  (ending (snd (call script)) <> Pending -> call (script ++ more) = call script)
  /\ (ending (snd (call script)) = Pending ->
      List.length (queries (events (snd (call script)))) = List.length script
      /\ exists rest,
           events (snd (call (script ++ more))) = events (snd (call script)) ++ rest).
Proof.
  cbv zeta. destruct (order_id_field upload_result) as [order_id |] eqn:Hid.
  - rewrite !(get_transcription_result_valid _ _ _ _ _ Hid). cbn [snd].
    set (self' := update_timestamp now self).
    destruct (poll_loop_app self' (poll_request self' order_id) script more 0)
      as [Hdone Hgo].
    split.
    + intros Hend. now rewrite (Hdone Hend).
    + intros Hend. destruct (Hgo Hend) as [Happ Hlen]. split; [exact Hlen |].
      rewrite Happ. cbn [after events]. eauto.
  - rewrite (get_transcription_result_invalid_any self now _ (script ++ more) script Hid).
    split; [reflexivity |].
    destruct (get_transcription_result_invalid self now _ script Hid) as (e & _ & ->).
    discriminate.
Qed.

Lemma later_replies_do_not_matter_witness :
  get_transcription_result client_a 1512041900 (upload_body "abc123")
    (sample_script_done ++ [http_500; status_reply 5])
  = get_transcription_result client_a 1512041900 (upload_body "abc123") sample_script_done
  /\ List.length
       (queries (events (snd (get_transcription_result client_a 1512041900
                                (upload_body "abc123") [status_reply 1; status_reply 0]))))
     = 2%nat.
Proof.
  destruct (later_replies_do_not_matter client_a 1512041900 (upload_body "abc123")
              sample_script_done [http_500; status_reply 5]) as [Hdone _].
  destruct (later_replies_do_not_matter client_a 1512041900 (upload_body "abc123")
              [status_reply 1; status_reply 0] [status_reply 4]) as [_ Hgo].
  split.
  - apply Hdone. vm_compute. discriminate.
  - apply Hgo. vm_compute. reflexivity.
Defined.

Lemma total_sleep_repeat (seconds : Z) (n : nat) :
  fold_right Z.add 0 (repeat seconds n) = Z.of_nat n * seconds.
Proof. induction n as [| n IH]; [reflexivity |]. cbn [repeat fold_right]. lia. Qed.

(** X5.  A call that fails with the timeout has made at least
    [max_retry] queries and has slept [poll_interval] after every one of
    them, so it has spent at least [max_retry * poll_interval] seconds
    sleeping. *)
Theorem timeout_takes_max_retry_rounds (self : LFASRClient) (now : Z)
    (upload_result : pyval) (script : list (res response)) :
  let r := snd (get_transcription_result self now upload_result script) in
  0 <= max_retry self ->
  0 <= poll_interval self ->
  ending r = Raised timeout_error ->
  List.length (sleeps (events r)) = List.length (queries (events r))
  /\ max_retry self <= Z.of_nat (List.length (queries (events r)))
  /\ max_retry self * poll_interval self <= total_sleep (events r).
Proof.
  cbv zeta. intros Hmax Hpi.
  destruct (order_id_field upload_result) as [order_id |] eqn:Hid.
  - rewrite (get_transcription_result_valid _ _ _ _ _ Hid). cbn [snd].
    set (self' := update_timestamp now self).
    set (request := poll_request self' order_id). intros Hend.
    destruct (poll_loop_rounds self' request script 0) as (n & _ & Hq & Hs & _).
    destruct (poll_loop_attempts self' request script 0 Hmax) as (_ & _ & Hiff).
    pose proof (poll_loop_attempts_sleeps self' request script 0) as Hle.
    cbv zeta in Hle. apply Hiff in Hend. change (max_retry self') with (max_retry self) in *.
    change (poll_interval self') with (poll_interval self) in *.
    unfold total_sleep.
    destruct (ending (poll_loop self' request 0 script)) eqn:E; cbn in Hq;
      rewrite Hs, ?repeat_length in *; rewrite ?total_sleep_repeat; try nia.
    exfalso. destruct (poll_loop_attempts self' request script 0 Hmax) as (_ & _ & Hiff').
    apply Hiff' in Hend. rewrite E in Hend. discriminate.
  - destruct (get_transcription_result_invalid self now _ script Hid)
      as (e & [Hcls | Hcls] & ->); cbn; intros [= ->]; discriminate Hcls.
Qed.

Lemma timeout_takes_max_retry_rounds_witness :
  let r := snd (get_transcription_result client_a 1512041900 (upload_body "abc123")
                  sample_script) in
  List.length (sleeps (events r)) = List.length (queries (events r))
  /\ 3 <= Z.of_nat (List.length (queries (events r)))
  /\ 3 * 5 <= total_sleep (events r).
Proof.
  apply (timeout_takes_max_retry_rounds client_a 1512041900 (upload_body "abc123")
           sample_script).
  - vm_compute. discriminate.
  - vm_compute. discriminate.
  - vm_compute. reflexivity.
Defined.


(** ** Requests and signatures *)

Lemma get_transcription_result_client (self : LFASRClient) (now : Z)
    (upload_result : pyval) (script : list (res response)) :
  fst (get_transcription_result self now upload_result script) = update_timestamp now self.
Proof.
  destruct (order_id_field upload_result) as [order_id |] eqn:Hid.
  - now rewrite (get_transcription_result_valid _ _ _ _ _ Hid).
  - now destruct (get_transcription_result_invalid self now _ script Hid) as (e & _ & ->).
Qed.

Lemma in_use_signed (appId secretKey : string) (self : LFASRClient) :
  in_use appId secretKey self ->
  appid self = appId /\ secret_key self = secretKey
  /\ signa self = sign appId secretKey (ts self).
Proof.
  induction 1 as [now m p t | self now _ IH | self now upload_result script _ IH].
  - repeat split.
  - destruct IH as (<- & <- & _). repeat split.
  - rewrite get_transcription_result_client. destruct IH as (<- & <- & _). repeat split.
Qed.

Lemma requests_of_queries (evs : list event) (P : http_request -> Prop) :
  (forall request file_path, ~ In (Post request file_path) evs) ->
  Forall P (queries evs) -> Forall P (requests evs).
Proof.
  induction evs as [| ev rest IH]; intros Hpost Hq; [constructor |].
  destruct ev as [request file_path | request | seconds]; cbn in *.
  - exfalso. apply (Hpost request file_path). now left.
  - inversion Hq; subst. constructor; [assumption |].
    apply IH; [| assumption]. intros r f Hin. apply (Hpost r f). now right.
  - apply IH; [| assumption]. intros r f Hin. apply (Hpost r f). now right.
Qed.

Lemma poll_loop_no_post (self : LFASRClient) (request : http_request)
    (script : list (res response)) (a : Z) (posted : http_request) (file_path : string) :
  ~ In (Post posted file_path) (events (poll_loop self request a script)).
Proof.
  destruct (poll_loop_rounds self request script a) as (n & -> & _).
  intros Hin. apply in_app_or in Hin. destruct Hin as [Hin | Hin].
  - unfold rounds in Hin. induction n as [| n IH]; cbn in Hin; [contradiction |].
    destruct Hin as [Hin | [Hin | Hin]]; try discriminate. now apply IH.
  - destruct (returned _); cbn in Hin; [destruct Hin as [Hin | []]; discriminate | contradiction].
Qed.

(** X7.  Every request a client in use sends, the upload and every
    status query of every call, names the client's application and
    carries a timestamp together with the signature of that very
    timestamp under the client's secret key. *)
Theorem client_requests_are_signed (appId secretKey : string) (self : LFASRClient) :
  in_use appId secretKey self ->
  (forall fs file_path reply,
     Forall (request_signed appId secretKey)
            (requests (fst (upload_file self fs file_path reply))))
  /\ (forall now upload_result script,
        Forall (request_signed appId secretKey)
               (requests (events (snd (get_transcription_result self now upload_result
                                         script))))).
Proof.
  intros Huse. destruct (in_use_signed appId secretKey self Huse) as (Ha & Hk & Hs).
  split.
  - intros fs file_path reply. destruct (fs file_path) as [size |] eqn:Hfile.
    + rewrite (upload_file_sent self fs file_path size reply Hfile).
      cbn [fst requests]. constructor; [| constructor].
      exists (ts self). cbn. rewrite Ha, Hs. repeat split.
    + unfold upload_file, os_path_exists. rewrite Hfile. constructor.
  - intros now upload_result script.
    destruct (order_id_field upload_result) as [order_id |] eqn:Hid.
    + rewrite (get_transcription_result_valid _ _ _ _ _ Hid). cbn [snd].
      apply requests_of_queries; [intros r f; apply poll_loop_no_post |].
      destruct (poll_loop_events (update_timestamp now self)
                  (poll_request (update_timestamp now self) order_id) script 0) as [Hq _].
      eapply Forall_impl; [| exact Hq]. intros q <-.
      exists (str_of_Z now). cbn. rewrite Ha, Hk. repeat split.
    + destruct (get_transcription_result_invalid self now _ script Hid) as (e & _ & ->).
      constructor.
Qed.

Lemma client_requests_are_signed_witness :
  Forall (request_signed "595f23df" "d9f4aa7ea6d94faca62cd88a28fd5234")
    (requests (fst (upload_file client_polled (one_file "/tmp/a.wav" 32000) "/tmp/a.wav"
                      (Ok (mkResponse 200 (Ok (upload_body "abc123")))))))
  /\ Forall (request_signed "595f23df" "d9f4aa7ea6d94faca62cd88a28fd5234")
       (requests (events (snd (get_transcription_result client_polled 1512042000
                                 (upload_body "abc123") sample_script)))).
Proof.
  destruct (client_requests_are_signed "595f23df" "d9f4aa7ea6d94faca62cd88a28fd5234"
              client_polled) as [Hup Hpoll].
  - apply in_use_polled. apply in_use_created.
  - split; [apply Hup | apply Hpoll].
Defined.

(** ** Uploads *)

Lemma upload_file_missing (self : LFASRClient) (fs : filesystem) (file_path : string)
    (reply : res response) :
  fs file_path = None ->
  upload_file self fs file_path reply
  = ([], Raise (Exc FileNotFoundError_ ("指定文件不存在: " ++ file_path)%string)).
Proof.
  intros Hfile. unfold upload_file, os_path_exists. now rewrite Hfile.
Qed.






(** X10.  A 200 response to an upload whose JSON body cannot give an
    application code is not reported as an API error: a body that is not
    an object raises [AttributeError], an object without a [code] field
    raises [KeyError] for [code], and a [code] that is a list or an
    object raises [TypeError] from the table lookup. *)
Theorem upload_code_field_errors (self : LFASRClient) (fs : filesystem)
    (file_path : string) (size : Z) (body : pyval) :
  fs file_path = Some size ->
  let out := snd (upload_file self fs file_path (Ok (mkResponse 200 (Ok body)))) in
  ((forall entries, body <> PDict entries) ->
   exists e, out = Raise e /\ exc_cls e = AttributeError_)
  /\ (forall entries,
        body = PDict entries -> assoc "code" entries = None ->
        out = Raise (Exc KeyError_ "code"))
  /\ (forall entries code,
        body = PDict entries -> assoc "code" entries = Some code ->
        (exists items, code = PList items) \/ (exists fields, code = PDict fields) ->
        exists e, out = Raise e /\ exc_cls e = TypeError_).
Proof.
  intros Hfile. cbv zeta.
  unfold upload_file, os_path_exists, _estimate_duration, os_path_getsize.
  rewrite Hfile. cbn [negb bind snd status_code json Z.eqb Pos.eqb].
  split; [| split].
  - intros Hnot. destruct body; cbn; eauto. now destruct (Hnot entries).
  - intros entries -> Hcode. cbn. now rewrite Hcode.
  - intros entries code -> Hcode Hkind. cbn. rewrite Hcode. cbn.
    destruct Hkind as [[items ->] | [fields ->]]; cbn; eauto.
Qed.

Lemma upload_code_field_errors_witness :
  let upload body :=
    snd (upload_file client_a (one_file "/tmp/a.wav" 32000) "/tmp/a.wav"
           (Ok (mkResponse 200 (Ok body)))) in
  (exists e, upload (PList []) = Raise e /\ exc_cls e = AttributeError_)
  /\ upload (PDict [ ("content", PDict [ ("orderId", PStr "abc123") ]) ])
     = Raise (Exc KeyError_ "code")
  /\ (exists e, upload (PDict [ ("code", PList [ PInt 0 ]) ]) = Raise e
                /\ exc_cls e = TypeError_).
Proof.
  cbv zeta. split; [| split].
  - destruct (upload_code_field_errors client_a (one_file "/tmp/a.wav" 32000) "/tmp/a.wav"
                32000 (PList []) eq_refl) as (H & _).
    apply H. discriminate.
  - destruct (upload_code_field_errors client_a (one_file "/tmp/a.wav" 32000) "/tmp/a.wav"
                32000 (PDict [ ("content", PDict [ ("orderId", PStr "abc123") ]) ]) eq_refl)
      as (_ & H & _).
    apply (H [ ("content", PDict [ ("orderId", PStr "abc123") ]) ]); reflexivity.
  - destruct (upload_code_field_errors client_a (one_file "/tmp/a.wav" 32000) "/tmp/a.wav"
                32000 (PDict [ ("code", PList [ PInt 0 ]) ]) eq_refl) as (_ & _ & H).
    apply (H [ ("code", PList [ PInt 0 ]) ] (PList [ PInt 0 ])); [reflexivity .. |].
    left. now exists [ PInt 0 ].
Defined.

(** ** The duration estimate on every file the system can hold *)

Lemma ratio_log2_lt (a e : Z) :
  0 <= e -> 0 < a < 32000 * 2 ^ e -> ratio_log2 a 32000 < e.
Proof.
  intros He [Hpos Hlt]. unfold ratio_log2.
  destruct (Z.leb_spec 32000 a) as [Hge | Hlt'].
  - assert (0 < a / 32000) by (apply Z.div_str_pos; lia).
    assert (a / 32000 < 2 ^ e) by (apply Z.div_lt_upper_bound; lia).
    apply Z.log2_lt_pow2; lia.
  - assert (2 <= (32000 + a - 1) / a) by (apply Z.div_le_lower_bound; lia).
    pose proof (Z.log2_up_pos ((32000 + a - 1) / a) ltac:(lia)). lia.
Qed.

Lemma round_then_truncate_near (a P : Z) :
  0 <= a -> 0 < P ->
  a / 32000 <= round_half_even (a * P) 32000 / P <= a / 32000 + 1.
Proof.
  intros Ha HP.
  pose proof (Z.div_mod a 32000 ltac:(lia)) as Ea.
  pose proof (Z.mod_pos_bound a 32000 ltac:(lia)) as Ba.
  pose proof (Z.div_mod (a * P) 32000 ltac:(lia)) as En.
  pose proof (Z.mod_pos_bound (a * P) 32000 ltac:(lia)) as Bn.
  set (k := a / 32000) in *. set (r := a mod 32000) in *.
  set (q := a * P / 32000) in *. set (s := a * P mod 32000) in *.
  assert (Hlo : k * P <= q) by nia.
  assert (Hhi : q < (k + 1) * P) by nia.
  destruct (round_half_even_cases (a * P) 32000 ltac:(lia)) as [E | [E _]];
    fold q in E; rewrite E; split.
  - apply Z.div_le_lower_bound; lia.
  - apply Z.lt_le_incl, Z.div_lt_upper_bound; lia.
  - apply Z.div_le_lower_bound; lia.
  - apply Z.div_le_upper_bound; lia.
Qed.

(** X11.  For every file size an operating system can report
    ([0 <= size < 2 ^ 63]), the duration that [_estimate_duration]
    returns is the decimal string of [floor (size / 32000)] or of that
    number plus one, never anything else. *)
Theorem estimate_duration_within_one (fs : filesystem) (file_path : string) (size : Z) :
  fs file_path = Some size ->
  0 <= size < 2 ^ 63 ->
  exists duration,
    _estimate_duration fs file_path = Ok (str_of_Z duration)
    /\ size / 32000 <= duration <= size / 32000 + 1.
Proof.
  intros Hfile [Hlo Hhi]. unfold _estimate_duration, os_path_getsize.
  rewrite Hfile. cbn [bind]. eexists. split; [reflexivity |].
  unfold py_int_truediv. destruct (Z.eqb_spec size 0) as [-> | Hnz]; [cbn; lia |].
  assert (He : ratio_log2 size 32000 < 52).
  { apply ratio_log2_lt; [lia |]. split; [lia |].
    assert (2 ^ 63 < 32000 * 2 ^ 52) by (vm_compute; reflexivity). lia. }
  unfold py_truediv, py_int_of_float.
  set (s := ratio_log2 size 32000 - 52) in *.
  destruct (Z.leb_spec 0 s) as [Hs | Hs]; [lia |].
  apply round_then_truncate_near; [lia |]. apply Z.pow_pos_nonneg; lia.
Qed.

Lemma estimate_duration_within_one_witness :
  exists duration,
    _estimate_duration (one_file "/tmp/big.wav" (32000 * (2 ^ 39 + 1) - 1)) "/tmp/big.wav"
    = Ok (str_of_Z duration)
    /\ (32000 * (2 ^ 39 + 1) - 1) / 32000 <= duration
       <= (32000 * (2 ^ 39 + 1) - 1) / 32000 + 1.
Proof.
  apply (estimate_duration_within_one
           (one_file "/tmp/big.wav" (32000 * (2 ^ 39 + 1) - 1)) "/tmp/big.wav"
           (32000 * (2 ^ 39 + 1) - 1)).
  - reflexivity.
  - vm_compute. split; [discriminate | reflexivity].
Defined.

(** ** Extraction beyond well-formed documents *)

Section ExtractionEdges.

Variable json_loads : string -> res pyval.

Lemma extract_body_field (result : pyval) :
  match order_result_field result with
  | Some text => extract_body json_loads result = extract_document json_loads text
  | None => exists e, extract_body json_loads result = Raise e
  end.
Proof.
  unfold order_result_field, extract_body.
  pose proof (getitem_field result "content") as Hc.
  destruct (py_getitem result "content") as [content | e]; cbn [bind].
  - rewrite Hc.
    pose proof (getitem_field content "orderResult") as Ho.
    destruct (py_getitem content "orderResult") as [v | e]; cbn [bind].
    + now rewrite Ho.
    + destruct Ho as [-> _]. eauto.
  - destruct Hc as [-> _]. eauto.
Qed.

Lemma for_each_appends_values walk item items values segments :
  appends_values walk item ->
  Forall2 item items values ->
  for_each items walk segments = Ok (segments ++ List.concat values).
Proof.
  intros Hwalk Hitems. revert segments.
  induction Hitems as [| v vs items values Hv _ IH]; intros segments; cbn.
  - now rewrite app_nil_r.
  - rewrite (Hwalk v vs segments Hv). cbn [bind]. rewrite IH. now rewrite app_assoc.
Qed.

Lemma walk_cw_appends_values : appends_values walk_cw word_values.
Proof.
  intros v values segments Hv. destruct Hv as [entries w Hw | entries Hw];
    unfold walk_cw; cbn; rewrite Hw; cbn; [reflexivity | now rewrite app_nil_r].
Qed.

Lemma list_field_appends_values walk item k :
  appends_values walk item ->
  appends_values (fun v segments => xs <- py_get v k (PList []) ;; for_in xs walk segments)
                 (list_field_values item k).
Proof.
  intros Hwalk v values segments Hv.
  destruct Hv as [entries items values Hk Hitems | entries Hk]; cbn; rewrite Hk; cbn.
  - now apply for_each_appends_values with (item := item).
  - now rewrite app_nil_r.
Qed.

Lemma walk_sentence_appends_values :
  appends_values walk_sentence (list_field_values word_values "words").
Proof. apply (list_field_appends_values walk_cw word_values "words"), walk_cw_appends_values. Qed.

Lemma walk_lattice_appends_values : appends_values walk_lattice lattice_values.
Proof.
  intros v values segments Hv.
  destruct Hv as [entries best st values Hb Hst Hrt | entries best Hb Hst | entries Hb];
    unfold walk_lattice; cbn; rewrite Hb; cbn; try rewrite Hst; cbn;
    [| now rewrite app_nil_r | now rewrite app_nil_r].
  apply (list_field_appends_values walk_rt
           (list_field_values (list_field_values word_values "cw") "ws") "rt");
    [| exact Hrt].
  apply (list_field_appends_values walk_ws (list_field_values word_values "cw") "ws").
  apply (list_field_appends_values walk_cw word_values "cw"), walk_cw_appends_values.
Qed.

Lemma py_join_all_strings (values : list pyval) :
  forallb is_str values = true ->
  exists tokens, values = map PStr tokens /\ py_join values = Ok (concatenation tokens).
Proof.
  induction values as [| v rest IH]; cbn; intros Hall.
  - now exists [].
  - apply andb_prop in Hall. destruct Hall as [Hv Hrest].
    destruct v; try discriminate Hv.
    destruct (IH Hrest) as (tokens & -> & Hjoin).
    exists (s :: tokens). split; [reflexivity |]. cbn. now rewrite Hjoin.
Qed.

Lemma py_join_not_string (values : list pyval) :
  forallb is_str values = false -> exists e, py_join values = Raise e.
Proof.
  induction values as [| v rest IH]; cbn; intros Hall; [discriminate |].
  destruct v; cbn in *; eauto.
  destruct (IH Hall) as [e ->]. cbn. eauto.
Qed.

End ExtractionEdges.

(** X12.  The transcript depends on [result.content.orderResult] alone:
    two results that agree on that field, or both lack it, give the same
    transcript, whatever else they hold. *)
Theorem extract_depends_on_order_result (json_loads : string -> res pyval)
    (result result' : pyval) :
  order_result_field result = order_result_field result' ->
  extract_transcript_text json_loads result = extract_transcript_text json_loads result'.
Proof.
  intros Hsame. unfold extract_transcript_text.
  pose proof (extract_body_field json_loads result) as H.
  pose proof (extract_body_field json_loads result') as H'.
  rewrite <- Hsame in H'.
  destruct (order_result_field result) as [text |].
  - now rewrite H, H'.
  - destruct H as [e ->], H' as [e' ->]. reflexivity.
Qed.

Lemma extract_depends_on_order_result_witness :
  extract_transcript_text json_loads_lite (result_with lattice_sample)
  = extract_transcript_text json_loads_lite
      (PDict [ ("content", PDict [ ("orderResult", PStr (json_dumps_lite lattice_sample)) ]);
               ("code", PInt 10102) ]).
Proof.
  apply (extract_depends_on_order_result json_loads_lite). reflexivity.
Defined.

(** X13.  On a document of either schema, the transcript is the
    concatenation of the [w] values reached by the walk when they are
    all strings; as soon as one of them is not a string, the whole
    transcript is the sentinel "提取文本内容失败", whatever the other
    values are. *)
Theorem extract_joins_or_fails (json_loads : string -> res pyval) (result : pyval)
    (text : string) (order_result : pyval) (values : list pyval) :
  order_result_field result = Some (PStr text) ->
  json_loads text = Ok order_result ->
  document_values order_result values ->
  (forallb is_str values = true ->
   exists tokens,
     values = map PStr tokens
     /\ extract_transcript_text json_loads result = Ok (concatenation tokens))
  /\ (forallb is_str values = false ->
      extract_transcript_text json_loads result = Ok failure_sentinel).
Proof.
  intros Hfield Hloads Hdoc.
  assert (Hbody : extract_body json_loads result = py_join values).
  { pose proof (extract_body_field json_loads result) as H. rewrite Hfield in H.
    rewrite H. unfold extract_document. cbn [py_json_loads]. rewrite Hloads. cbn [bind].
    destruct Hdoc as [entries items values Hl Hitems | entries items values Hl Hs Hitems];
      cbn; rewrite Hl; cbn; try rewrite Hs; cbn.
    - now rewrite (for_each_appends_values walk_lattice lattice_values items values []
                     walk_lattice_appends_values Hitems).
    - now rewrite (for_each_appends_values walk_sentence _ items values []
                     walk_sentence_appends_values Hitems). }
  unfold extract_transcript_text. rewrite Hbody. split; intros Hall.
  - destruct (py_join_all_strings values Hall) as (tokens & -> & Hjoin).
    exists tokens. now rewrite Hjoin.
  - now destruct (py_join_not_string values Hall) as [e ->].
Qed.

Lemma list_field_values_eq item k entries items values all :
  assoc k entries = Some (PList items) ->
  Forall2 item items values ->
  all = List.concat values ->
  list_field_values item k (PDict entries) all.
Proof. intros Hk Hitems ->. now apply list_field_values_present with (items := items). Qed.

Lemma document_sentences_eq entries items values all :
  assoc "lattice" entries = None ->
  assoc "sentences" entries = Some (PList items) ->
  Forall2 (list_field_values word_values "words") items values ->
  all = List.concat values ->
  document_values (PDict entries) all.
Proof. intros Hl Hk Hitems ->. now apply document_sentences with (items := items). Qed.

Lemma extract_joins_or_fails_witness :
  extract_transcript_text json_loads_lite (result_with sentences_with_number)
  = Ok "提取文本内容失败".
Proof.
  assert (Hdoc : document_values sentences_with_number
                   [PStr "hello"; PInt 5; PStr "world"]).
  { eapply document_sentences_eq; [reflexivity | reflexivity | |].
    - apply Forall2_cons; [| apply Forall2_nil].
      eapply list_field_values_eq; [reflexivity | |].
      + apply Forall2_cons; [eapply word_value; reflexivity |].
        apply Forall2_cons; [eapply word_value; reflexivity |].
        apply Forall2_cons; [eapply word_value; reflexivity |].
        apply Forall2_nil.
      + reflexivity.
    - reflexivity. }
  destruct (extract_joins_or_fails json_loads_lite (result_with sentences_with_number)
              (json_dumps_lite sentences_with_number) sentences_with_number
              [PStr "hello"; PInt 5; PStr "world"] eq_refl eq_refl Hdoc) as [_ Hfail].
  apply Hfail. reflexivity.
Defined.

(** X14.  When the embedded document is valid JSON but not an object:
    [null], a boolean or a number gives the sentinel "提取文本内容失败";
    an array gives it when one of its elements is the string [lattice]
    or [sentences], and a string when it contains one of these words;
    every other array or string gives the sentinel "无法解析转写结果". *)
Theorem extract_non_object_document (json_loads : string -> res pyval) (result : pyval)
    (text : string) (order_result : pyval) :
  order_result_field result = Some (PStr text) ->
  json_loads text = Ok order_result ->
  (forall entries, order_result <> PDict entries) ->
  extract_transcript_text json_loads result = Ok (non_object_transcript order_result).
Proof.
  intros Hfield Hloads Hnot. unfold extract_transcript_text.
  pose proof (extract_body_field json_loads result) as H. rewrite Hfield in H.
  rewrite H. unfold extract_document. cbn [py_json_loads]. rewrite Hloads. cbn [bind].
  destruct order_result as [| b | n | s | items | entries]; cbn; try reflexivity.
  - destruct (is_substring "lattice" s); cbn; [reflexivity |].
    destruct (is_substring "sentences" s); reflexivity.
  - destruct (existsb (fun v => py_eq_str v "lattice") items); cbn; [reflexivity |].
    destruct (existsb (fun v => py_eq_str v "sentences") items); reflexivity.
  - now destruct (Hnot entries).
Qed.

Lemma extract_non_object_document_witness :
  extract_transcript_text json_loads_lite (result_with (PList [ PInt 1; PStr "a" ]))
  = Ok "无法解析转写结果"
  /\ extract_transcript_text json_loads_lite (result_with (PList [ PStr "lattice" ]))
     = Ok "提取文本内容失败"
  /\ extract_transcript_text json_loads_lite (result_with (PStr "no sentences here"))
     = Ok "提取文本内容失败"
  /\ extract_transcript_text json_loads_lite (result_with (PInt 7))
     = Ok "提取文本内容失败".
Proof.
  split; [| split; [| split]].
  - apply (extract_non_object_document json_loads_lite
             (result_with (PList [ PInt 1; PStr "a" ]))
             (json_dumps_lite (PList [ PInt 1; PStr "a" ])) (PList [ PInt 1; PStr "a" ]));
      [reflexivity | reflexivity | discriminate].
  - apply (extract_non_object_document json_loads_lite
             (result_with (PList [ PStr "lattice" ]))
             (json_dumps_lite (PList [ PStr "lattice" ])) (PList [ PStr "lattice" ]));
      [reflexivity | reflexivity | discriminate].
  - apply (extract_non_object_document json_loads_lite
             (result_with (PStr "no sentences here"))
             (json_dumps_lite (PStr "no sentences here")) (PStr "no sentences here"));
      [reflexivity | reflexivity | discriminate].
  - apply (extract_non_object_document json_loads_lite (result_with (PInt 7))
             (json_dumps_lite (PInt 7)) (PInt 7));
      [reflexivity | reflexivity | discriminate].
Defined.

(** ** Saving, the whole flow and the worker *)


Lemma extract_total (json_loads : string -> res pyval) (result : pyval) :
  exists transcript, extract_transcript_text json_loads result = Ok transcript.
Proof.
  unfold extract_transcript_text, try_except.
  destruct (extract_body json_loads result); eauto.
Qed.



Lemma json_files_app (a b : list action) :
  json_files (a ++ b) = json_files a ++ json_files b.
Proof.
  induction a as [| x a IH]; [reflexivity |]. destruct x; cbn; now rewrite IH.
Qed.

Lemma text_files_app (a b : list action) :
  text_files (a ++ b) = text_files a ++ text_files b.
Proof.
  induction a as [| x a IH]; [reflexivity |]. destruct x; cbn; now rewrite IH.
Qed.

Lemma ui_calls_app (a b : list action) :
  ui_calls (a ++ b) = ui_calls a ++ ui_calls b.
Proof.
  induction a as [| x a IH]; [reflexivity |]. destruct x; cbn; now rewrite IH.
Qed.

Lemma network_only (evs : list event) :
  json_files (map Network evs) = []
  /\ text_files (map Network evs) = []
  /\ ui_calls (map Network evs) = [].
Proof. induction evs as [| ev evs (H1 & H2 & H3)]; cbn; auto. Qed.

(** What one call of [save_results] writes and shows. *)
Lemma save_results_files (json_loads : string -> res pyval) (result : pyval)
    (original_path output_dir : string) (w : saving) :
  let saved := save_results json_loads result original_path output_dir w in
  ui_calls (fst saved) = []
  /\ Forall (fun file => snd file = result) (json_files (fst saved))
  /\ (forall triple,
        snd saved = Ok triple ->
        json_files (fst saved) = [(snd triple, result)]
        /\ text_files (fst saved) = [(snd (fst triple), fst (fst triple))]
        /\ extract_transcript_text json_loads result = Ok (fst (fst triple))
        /\ open_json w = Ok tt /\ open_text w = Ok tt)
  /\ (forall e, snd saved = Raise e -> text_files (fst saved) = []).
Proof.
  cbv zeta. unfold save_results.
  destruct (extract_total json_loads result) as [transcript Ht]. rewrite Ht.
  destruct (open_json w) as [[] | e1].
  2:{ cbn. split; [reflexivity | split; [constructor | split]];
        [intros triple; discriminate | reflexivity]. }
  destruct (open_text w) as [[] | e2]; cbn.
  - split; [reflexivity | split; [repeat constructor | split]];
      [| intros e; discriminate].
    intros triple [= <-]. cbn. auto.
  - split; [reflexivity | split; [repeat constructor | split]];
      [intros triple; discriminate | reflexivity].
Qed.

Section FlowProofs.

Variable json_loads : string -> res pyval.

(** The cases of [transcribe]. *)
Lemma transcribe_cases (self : LFASRClient) (file_path output_dir : string) (w : flow) :
  let t := transcribe json_loads self file_path output_dir w in
  let up := upload_file self (files w) file_path (upload_reply w) in
  (exists e, makedirs w = Raise e /\ t = (self, [], Raised e))
  \/ (makedirs w = Ok tt /\
      ((exists e, snd up = Raise e
                  /\ t = (self, MakeDirs output_dir :: map Network (fst up), Raised e))
       \/ (exists upload_result,
             snd up = Ok upload_result /\
             let g := get_transcription_result self (poll_clock w) upload_result
                        (poll_replies w) in
             let done := MakeDirs output_dir :: map Network (fst up ++ events (snd g)) in
             (ending (snd g) = Pending /\ t = (fst g, done, Pending))
             \/ (exists e, ending (snd g) = Raised e /\ t = (fst g, done, Raised e))
             \/ (exists result,
                   ending (snd g) = Returned result /\
                   let s := save_results json_loads result file_path output_dir
                              (first_save w) in
                   fst (fst t) = fst g
                   /\ snd (fst t) = done ++ fst s
                   /\ ((exists e, snd s = Raise e /\ snd t = Raised e)
                       \/ (exists triple, snd s = Ok triple /\ snd t = Returned result)))))).
Proof.
  cbv zeta. unfold transcribe.
  destruct (makedirs w) as [[] | e]; [right; split; [reflexivity |] | left; eauto].
  destruct (upload_file self (files w) file_path (upload_reply w)) as [sent [up | e]];
    cbn [fst snd]; [right | left; eauto].
  exists up. split; [reflexivity |]. cbv zeta.
  destruct (get_transcription_result self (poll_clock w) up (poll_replies w))
    as [self' polled]. cbn [fst snd].
  destruct (ending polled) as [result | e |]; [right; right | right; left; eauto | left; auto].
  exists result. split; [reflexivity |].
  destruct (save_results json_loads result file_path output_dir (first_save w))
    as [written [triple | e]]; cbn [fst snd]; repeat split; eauto.
Qed.

End FlowProofs.

Lemma save_results_ok_iff (json_loads : string -> res pyval) (result : pyval)
    (original_path output_dir : string) (w : saving) :
  (exists triple, snd (save_results json_loads result original_path output_dir w) = Ok triple)
  <-> open_json w = Ok tt /\ open_text w = Ok tt.
Proof.
  unfold save_results.
  destruct (extract_total json_loads result) as [transcript Ht]. rewrite Ht.
  destruct (open_json w) as [[] | e1]; [| cbn; split; [intros [? H] | intros [H _]]; discriminate].
  destruct (open_text w) as [[] | e2]; cbn.
  - split; [auto | eauto].
  - split; [intros [? H] | intros [_ H]]; discriminate.
Qed.

(** X16.  [transcribe] returns a result exactly when every step went
    through: the output directory could be made, the upload returned,
    polling returned that result, and both files could be written.  In
    every other case it raises or is still polling, even when the result
    itself had already been fetched. *)
Theorem transcribe_returns_iff (json_loads : string -> res pyval) (self : LFASRClient)
    (file_path output_dir : string) (w : flow) (result : pyval) :
  snd (transcribe json_loads self file_path output_dir w) = Returned result
  <-> makedirs w = Ok tt
      /\ (exists upload_result,
            snd (upload_file self (files w) file_path (upload_reply w)) = Ok upload_result
            /\ ending (snd (get_transcription_result self (poll_clock w) upload_result
                              (poll_replies w))) = Returned result)
      /\ open_json (first_save w) = Ok tt
      /\ open_text (first_save w) = Ok tt.
Proof.
  destruct (transcribe_cases json_loads self file_path output_dir w)
    as [(e & Hmk & ->) | (Hmk & [(e & Hup & ->) | (u & Hup & Hpoll)])]; cbn [snd].
  - split; [discriminate | intros (H & _); congruence].
  - split; [discriminate | intros (_ & (u & H & _) & _); congruence].
  - cbv zeta in Hpoll.
    destruct Hpoll as [(Hend & ->) | [(e & Hend & ->) | (r & Hend & _ & _ & Hsave)]];
      cbn [snd].
    + split; [discriminate |].
      intros (_ & (u' & Hup' & Hend') & _). rewrite Hup in Hup'. injection Hup' as <-.
      congruence.
    + split; [discriminate |].
      intros (_ & (u' & Hup' & Hend') & _). rewrite Hup in Hup'. injection Hup' as <-.
      congruence.
    + pose proof (save_results_ok_iff json_loads r file_path output_dir (first_save w))
        as Hok.
      destruct Hsave as [(e & Hs & ->) | (triple & Hs & ->)].
      * split; [discriminate |].
        intros (_ & _ & Hj & Ht). destruct Hok as [_ Hok].
        destruct (Hok (conj Hj Ht)) as [triple Hs']. congruence.
      * split.
        -- intros [= <-]. destruct Hok as [Hok _].
           destruct (Hok (ex_intro _ triple Hs)) as [Hj Ht]. eauto 6.
        -- intros (_ & (u' & Hup' & Hend') & _). rewrite Hup in Hup'.
           injection Hup' as <-. congruence.
Qed.

Lemma returned_is_complete_order (self : LFASRClient) (now : Z) (upload_result : pyval)
    (script : list (res response)) (body : pyval) :
  ending (snd (get_transcription_result self now upload_result script)) = Returned body ->
  complete_order body.
Proof.
  destruct (order_id_field upload_result) as [order_id |] eqn:Hid.
  - rewrite (get_transcription_result_valid _ _ _ _ _ Hid). cbn [snd]. intros Hend.
    destruct (poll_loop_returned _ _ _ _ _ Hend)
      as (n & response & code & status & _ & _ & _ & _ & H).
    now exists code, status.
  - destruct (get_transcription_result_invalid self now _ script Hid) as (e & _ & ->).
    discriminate.
Qed.

Lemma save_results_writes (json_loads : string -> res pyval) (result : pyval)
    (original_path output_dir : string) (w : saving) :
  forallb is_write (fst (save_results json_loads result original_path output_dir w)) = true.
Proof.
  unfold save_results.
  destruct (extract_total json_loads result) as [transcript Ht]. rewrite Ht.
  destruct (open_json w) as [[] | e1]; [| reflexivity].
  destruct (open_text w) as [[] | e2]; reflexivity.
Qed.

(** X17.  Every JSON file that [transcribe] writes holds the body of a
    completed order: application code 0 and order status 4.  It writes
    at most one JSON file and one text file, and it writes the text file
    exactly when it returns. *)
Theorem transcribe_saves_completed_orders (json_loads : string -> res pyval)
    (self : LFASRClient) (file_path output_dir : string) (w : flow) :
  let t := transcribe json_loads self file_path output_dir w in
  Forall (fun file => complete_order (snd file)) (json_files (snd (fst t)))
  /\ (List.length (json_files (snd (fst t))) <= 1)%nat
  /\ (List.length (text_files (snd (fst t))) <= 1)%nat
  /\ (text_files (snd (fst t)) <> [] <-> exists result, snd t = Returned result).
Proof.
  cbv zeta.
  destruct (transcribe_cases json_loads self file_path output_dir w)
    as [(e & Hmk & ->) | (Hmk & [(e & Hup & ->) | (u & Hup & Hpoll)])]; cbn [fst snd].
  - cbn. repeat split; auto; try congruence. intros [r H]. discriminate.
  - destruct (network_only (fst (upload_file self (files w) file_path (upload_reply w))))
      as (Hj & Ht & _).
    cbn [json_files text_files]. rewrite Hj, Ht. cbn.
    repeat split; auto; try congruence. intros [r H]. discriminate.
  - cbv zeta in Hpoll.
    set (g := get_transcription_result self (poll_clock w) u (poll_replies w)) in *.
    set (net := fst (upload_file self (files w) file_path (upload_reply w))
                ++ events (snd g)) in *.
    destruct (network_only net) as (Hj & Ht & _).
    destruct Hpoll as [(Hend & ->) | [(e & Hend & ->) | (r & Hend & _ & Hacts & Hsave)]];
      cbn [fst snd].
    + cbn [json_files text_files]. rewrite Hj, Ht. cbn.
      repeat split; auto; try congruence. intros [r H]. discriminate.
    + cbn [json_files text_files]. rewrite Hj, Ht. cbn.
      repeat split; auto; try congruence. intros [r H]. discriminate.
    + rewrite Hacts. change (MakeDirs output_dir :: map Network net)
        with ([MakeDirs output_dir] ++ map Network net).
      rewrite !json_files_app, !text_files_app, Hj, Ht. cbn [json_files text_files app].
      pose proof (returned_is_complete_order self (poll_clock w) u (poll_replies w) r Hend)
        as Hcomplete.
      destruct (save_results_files json_loads r file_path output_dir (first_save w))
        as (_ & Hvalues & Hok & Hfail).
      destruct Hsave as [(e & Hs & ->) | (triple & Hs & ->)].
      * rewrite (Hfail e Hs).
        split; [| split; [| split; [cbn; lia |]]].
        -- eapply Forall_impl; [| exact Hvalues]. intros file ->. exact Hcomplete.
        -- unfold save_results.
           destruct (extract_total json_loads r) as [transcript Hx]. rewrite Hx.
           destruct (open_json (first_save w)) as [[] | e1]; [| cbn; lia].
           destruct (open_text (first_save w)) as [[] | e2]; cbn; lia.
        -- split; [congruence | intros [r' H]; discriminate].
      * destruct (Hok triple Hs) as (Hjf & Htf & _). rewrite Hjf, Htf.
        split; [| split; [cbn; lia | split; [cbn; lia |]]].
        -- constructor; [exact Hcomplete | constructor].
        -- split; [eauto | discriminate].
Qed.

Lemma transcribe_no_ui (json_loads : string -> res pyval) (self : LFASRClient)
    (file_path output_dir : string) (w : flow) :
  ui_calls (snd (fst (transcribe json_loads self file_path output_dir w))) = [].
Proof.
  destruct (transcribe_cases json_loads self file_path output_dir w)
    as [(e & Hmk & ->) | (Hmk & [(e & Hup & ->) | (u & Hup & Hpoll)])]; cbn [fst snd].
  - reflexivity.
  - cbn. apply network_only.
  - cbv zeta in Hpoll.
    destruct Hpoll as [(Hend & ->) | [(e & Hend & ->) | (r & Hend & _ & -> & _)]];
      cbn [fst snd]; try (cbn; apply network_only).
    rewrite ui_calls_app. cbn [ui_calls].
    destruct (save_results_files json_loads r file_path output_dir (first_save w))
      as (-> & _).
    rewrite app_nil_r. apply network_only.
Qed.

Lemma transcribe_client (json_loads : string -> res pyval) (self : LFASRClient)
    (file_path output_dir : string) (w : flow) :
  let self' := fst (fst (transcribe json_loads self file_path output_dir w)) in
  self' = self \/ self' = update_timestamp (poll_clock w) self.
Proof.
  cbv zeta.
  destruct (transcribe_cases json_loads self file_path output_dir w)
    as [(e & Hmk & ->) | (Hmk & [(e & Hup & ->) | (u & Hup & Hpoll)])]; cbn [fst snd];
    auto.
  cbv zeta in Hpoll. right.
  destruct Hpoll as [(Hend & ->) | [(e & Hend & ->) | (r & Hend & -> & _)]];
    cbn [fst snd]; apply get_transcription_result_client.
Qed.

(** X18.  [transcribe] makes the output directory before anything else:
    when that fails nothing is sent; when it succeeds the directory is
    there even if the audio file turns out to be missing, in which case
    nothing is sent either.  All the network traffic comes before the
    first file is written. *)
Theorem transcribe_makes_directory_first (json_loads : string -> res pyval)
    (self : LFASRClient) (file_path output_dir : string) (w : flow) :
  let t := transcribe json_loads self file_path output_dir w in
  (forall e, makedirs w = Raise e -> t = (self, [], Raised e))
  /\ (makedirs w = Ok tt ->
      exists net written,
        snd (fst t) = MakeDirs output_dir :: map Network net ++ written
        /\ forallb is_write written = true)
  /\ (makedirs w = Ok tt -> files w file_path = None ->
      t = (self, [MakeDirs output_dir],
           Raised (Exc FileNotFoundError_ ("指定文件不存在: " ++ file_path)%string))).
Proof.
  cbv zeta.
  destruct (transcribe_cases json_loads self file_path output_dir w)
    as [(e & Hmk & Ht) | (Hmk & [(e & Hup & Ht) | (u & Hup & Hpoll)])].
  - rewrite Ht. split; [| split]; intros; congruence.
  - rewrite Ht. cbn [fst snd]. split; [intros; congruence | split].
    + intros _. exists (fst (upload_file self (files w) file_path (upload_reply w))), [].
      now rewrite app_nil_r.
    + intros _ Hfile.
      rewrite (upload_file_missing self (files w) file_path (upload_reply w) Hfile) in *.
      cbn in *. congruence.
  - cbv zeta in Hpoll. split; [intros; congruence | split].
    + intros _.
      exists (fst (upload_file self (files w) file_path (upload_reply w))
              ++ events (snd (get_transcription_result self (poll_clock w) u
                                (poll_replies w)))).
      destruct Hpoll as [(Hend & ->) | [(e & Hend & ->) | (r & Hend & _ & -> & _)]];
        cbn [fst snd].
      * exists []. now rewrite app_nil_r.
      * exists []. now rewrite app_nil_r.
      * exists (fst (save_results json_loads r file_path output_dir (first_save w))).
        split; [reflexivity | apply save_results_writes].
    + intros _ Hfile.
      rewrite (upload_file_missing self (files w) file_path (upload_reply w) Hfile) in Hup.
      discriminate.
Qed.

Lemma transcribe_makes_directory_first_witness :
  transcribe json_loads_lite client_a "/tmp/missing.wav" "out" sample_flow
  = (client_a, [MakeDirs "out"],
     Raised (Exc FileNotFoundError_ "指定文件不存在: /tmp/missing.wav")).
Proof.
  apply (transcribe_makes_directory_first json_loads_lite client_a "/tmp/missing.wav"
           "out" sample_flow); reflexivity.
Defined.

Lemma save_results_names (json_loads : string -> res pyval) (result : pyval)
    (original_path output_dir : string) (w : saving) (triple : string * string * string) :
  snd (save_results json_loads result original_path output_dir w) = Ok triple ->
  let name extension :=
    (output_dir ++ "/" ++ splitext_root (os_path_basename original_path)
       ++ "_" ++ stamp w ++ extension)%string in
  snd triple = name ".json" /\ snd (fst triple) = name ".txt".
Proof.
  unfold save_results.
  destruct (extract_total json_loads result) as [transcript Ht]. rewrite Ht.
  destruct (open_json w) as [[] | e1]; [| discriminate].
  destruct (open_text w) as [[] | e2]; [| discriminate].
  cbn. intros [= <-]. now cbn.
Qed.

(** The cases of the worker. *)
Lemma run_transcription_cases (json_loads : string -> res pyval) (self : window)
    (appid secret file_path output_dir : string) (w : work) :
  let created := __init__ (init_clock w) appid secret 3 5 default_result_type in
  let t := transcribe json_loads created file_path output_dir (transcription w) in
  let run := run_transcription json_loads self appid secret file_path output_dir w in
  (snd t = Pending
   /\ run = (mkWindow (is_processing self) (Some (fst (fst t))), snd (fst t), false))
  \/ (exists e,
        snd t = Raised e
        /\ run = (mkWindow false (Some (fst (fst t))),
                  snd (fst t) ++ [Ui (ShowFailure e); Ui ResetButton], true))
  \/ (exists result,
        snd t = Returned result /\
        let s := save_results json_loads result file_path output_dir (second_save w) in
        (exists e,
           snd s = Raise e
           /\ run = (mkWindow false (Some (fst (fst t))),
                     snd (fst t) ++ fst s ++ [Ui (ShowFailure e); Ui ResetButton], true))
        \/ (exists transcript text_file json_file,
              snd s = Ok (transcript, text_file, json_file)
              /\ run = (mkWindow false (Some (fst (fst t))),
                        snd (fst t) ++ fst s
                        ++ [Ui (ShowResults transcript text_file json_file);
                            Ui ResetButton], true))).
Proof.
  cbv zeta. unfold run_transcription.
  destruct (transcribe json_loads _ file_path output_dir (transcription w))
    as [[used done] ended]. cbn [fst snd].
  destruct ended as [result | e |]; [right; right | right; left; eauto | left; auto].
  exists result. split; [reflexivity |]. cbv zeta.
  destruct (save_results json_loads result file_path output_dir (second_save w))
    as [written [[[transcript text_file] json_file] | e]]; cbn [fst snd].
  - right. now exists transcript, text_file, json_file.
  - left. now exists e.
Qed.

(** X19.  When the worker shows results, the result has been saved
    twice: [transcribe] wrote a JSON file and a text file, and the
    worker's own call of [save_results] wrote both again, with the same
    contents; the names shown are those of the second pair.  When both
    saves fall in the same second the names coincide, so the first pair
    is overwritten. *)
Theorem worker_saves_twice (json_loads : string -> res pyval) (self : window)
    (appid secret file_path output_dir : string) (w : work)
    (transcript text_file json_file : string) :
  let acts := snd (fst (run_transcription json_loads self appid secret file_path
                          output_dir w)) in
  In (ShowResults transcript text_file json_file) (ui_calls acts) ->
  exists result first_json first_text,
    json_files acts = [(first_json, result); (json_file, result)]
    /\ text_files acts = [(first_text, transcript); (text_file, transcript)]
    /\ complete_order result
    /\ (stamp (first_save (transcription w)) = stamp (second_save w) ->
        first_json = json_file /\ first_text = text_file).
Proof.
  cbv zeta.
  pose proof (run_transcription_cases json_loads self appid secret file_path output_dir w)
    as Hcases. cbv zeta in Hcases.
  pose proof (transcribe_no_ui json_loads
                (__init__ (init_clock w) appid secret 3 5 default_result_type)
                file_path output_dir (transcription w)) as Hnoui.
  set (created := __init__ (init_clock w) appid secret 3 5 default_result_type) in *.
  destruct Hcases as [(Hend & ->) | [(e & Hend & ->) | (result & Hend & Hsave)]];
    cbn [fst snd].
  - rewrite Hnoui. contradiction.
  - rewrite ui_calls_app, Hnoui. cbn. intros [H | [H | []]]; discriminate.
  - cbv zeta in Hsave.
    destruct (save_results_files json_loads result file_path output_dir (second_save w))
      as (Hui2 & _ & Hok2 & _).
    destruct Hsave as [(e & Hs & ->) | (tr & tf & jf & Hs & ->)]; cbn [fst snd];
      rewrite !ui_calls_app, Hnoui, Hui2; cbn.
    + intros [H | [H | []]]; discriminate.
    + intros [[= -> -> ->] | [H | []]]; [| discriminate].
      destruct (Hok2 _ Hs) as (Hj2 & Ht2 & Hx2 & _). cbn [fst snd] in *.
      destruct (save_results_names json_loads result file_path output_dir (second_save w)
                  _ Hs) as [Hn2j Hn2t]. cbn [fst snd] in *.
      (* the first save, inside transcribe *)
      destruct (transcribe_cases json_loads created file_path output_dir (transcription w))
        as [(e & _ & Ht) | (_ & [(e & _ & Ht) | (u & Hup & Hpoll)])];
        try (rewrite Ht in Hend; discriminate).
      cbv zeta in Hpoll.
      destruct Hpoll as [(_ & Ht) | [(e & _ & Ht) | (r & Hret & _ & Hacts & Hsave1)]];
        try (rewrite Ht in Hend; discriminate).
      destruct Hsave1 as [(e & _ & Ht) | (triple & Hs1 & Ht)];
        rewrite Ht in Hend; [discriminate |]. injection Hend as ->.
      destruct (save_results_files json_loads result file_path output_dir
                  (first_save (transcription w))) as (_ & _ & Hok1 & _).
      destruct (Hok1 _ Hs1) as (Hj1 & Ht1 & Hx1 & _).
      destruct (save_results_names json_loads result file_path output_dir
                  (first_save (transcription w)) _ Hs1) as [Hn1j Hn1t].
      destruct (network_only
                  (fst (upload_file created (files (transcription w)) file_path
                          (upload_reply (transcription w)))
                   ++ events (snd (get_transcription_result created
                                     (poll_clock (transcription w)) u
                                     (poll_replies (transcription w))))))
        as (Hnj & Hnt & _).
      exists result, (snd triple), (snd (fst triple)).
      rewrite Hacts.
      change (MakeDirs output_dir :: map Network ?n) with ([MakeDirs output_dir] ++ map Network n).
      rewrite !json_files_app, !text_files_app, Hnj, Hnt, Hj1, Ht1, Hj2, Ht2.
      cbn [json_files text_files app].
      assert (fst (fst triple) = transcript) as -> by congruence.
      split; [reflexivity | split; [reflexivity | split]].
      * exact (returned_is_complete_order _ _ _ _ _ Hret).
      * intros Hstamp. rewrite Hn1j, Hn1t, Hn2j, Hn2t, Hstamp. auto.
Qed.

Lemma worker_saves_twice_witness :
  let acts := snd (fst (run_transcription json_loads_lite (mkWindow true None)
                          "595f23df" "d9f4aa7ea6d94faca62cd88a28fd5234"
                          "/tmp/a.wav" "out" sample_work)) in
  exists result first_json first_text,
    json_files acts = [(first_json, result); ("out/a_20171130_123821.json", result)]
    /\ text_files acts = [(first_text, "今天天气"); ("out/a_20171130_123821.txt", "今天天气")]
    /\ complete_order result
    /\ (stamp (first_save (transcription sample_work)) = stamp (second_save sample_work) ->
        first_json = "out/a_20171130_123821.json"
        /\ first_text = "out/a_20171130_123821.txt").
Proof.
  apply (worker_saves_twice json_loads_lite (mkWindow true None)
           "595f23df" "d9f4aa7ea6d94faca62cd88a28fd5234" "/tmp/a.wav" "out" sample_work
           "今天天气" "out/a_20171130_123821.txt" "out/a_20171130_123821.json").
  vm_compute. left. reflexivity.
Defined.

(** X20.  The worker reports exactly once.  When it has finished, it has
    scheduled either the display of the results or the display of one
    failure, then the reset of the button, and [is_processing] is
    false; while its polling loop is still waiting, it has scheduled
    nothing and [is_processing] is as it found it.  In every case the
    client it leaves in the window has the credentials it was given,
    [max_retry = 3], [poll_interval = 5] and the default result type. *)
Theorem worker_reports_once (json_loads : string -> res pyval) (self : window)
    (app_id secret file_path output_dir : string) (w : work) :
  let run := run_transcription json_loads self app_id secret file_path output_dir w in
  let after_run := fst (fst run) in
  let calls := ui_calls (snd (fst run)) in
  (snd run = true ->
   is_processing after_run = false
   /\ ((exists transcript text_file json_file,
          calls = [ShowResults transcript text_file json_file; ResetButton])
       \/ (exists e, calls = [ShowFailure e; ResetButton])))
  /\ (snd run = false ->
      calls = [] /\ is_processing after_run = is_processing self)
  /\ (exists used,
        client after_run = Some used
        /\ appid used = app_id /\ secret_key used = secret
        /\ max_retry used = 3 /\ poll_interval used = 5
        /\ result_type used = "transfer,predict").
Proof.
  cbv zeta.
  pose proof (run_transcription_cases json_loads self app_id secret file_path output_dir w)
    as Hcases. cbv zeta in Hcases.
  pose proof (transcribe_no_ui json_loads
                (__init__ (init_clock w) app_id secret 3 5 default_result_type)
                file_path output_dir (transcription w)) as Hnoui.
  pose proof (transcribe_client json_loads
                (__init__ (init_clock w) app_id secret 3 5 default_result_type)
                file_path output_dir (transcription w)) as Hclient.
  cbv zeta in Hclient.
  set (created := __init__ (init_clock w) app_id secret 3 5 default_result_type) in *.
  set (t := transcribe json_loads created file_path output_dir (transcription w)) in *.
  assert (Hused : appid (fst (fst t)) = app_id /\ secret_key (fst (fst t)) = secret
                  /\ max_retry (fst (fst t)) = 3 /\ poll_interval (fst (fst t)) = 5
                  /\ result_type (fst (fst t)) = "transfer,predict").
  { destruct Hclient as [-> | ->]; repeat split. }
  destruct Hcases as [(Hend & ->) | [(e & Hend & ->) | (result & Hend & Hsave)]];
    cbn [fst snd client is_processing].
  - split; [discriminate | split; [auto | eauto]].
  - rewrite ui_calls_app, Hnoui. cbn.
    split; [eauto | split; [discriminate | eauto]].
  - destruct (save_results_files json_loads result file_path output_dir (second_save w))
      as (Hui2 & _).
    destruct Hsave as [(e & Hs & ->) | (tr & tf & jf & Hs & ->)];
      cbn [fst snd client is_processing]; rewrite !ui_calls_app, Hnoui, Hui2; cbn.
    + split; [eauto | split; [discriminate | eauto]].
    + split; [eauto 6 | split; [discriminate | eauto]].
Qed.

Lemma worker_reports_once_witness :
  let run := run_transcription json_loads_lite (mkWindow true None)
               "595f23df" "d9f4aa7ea6d94faca62cd88a28fd5234" "/tmp/a.wav" "out"
               sample_work in
  is_processing (fst (fst run)) = false
  /\ ((exists transcript text_file json_file,
         ui_calls (snd (fst run)) = [ShowResults transcript text_file json_file; ResetButton])
      \/ (exists e, ui_calls (snd (fst run)) = [ShowFailure e; ResetButton])).
Proof.
  apply (worker_reports_once json_loads_lite (mkWindow true None)
           "595f23df" "d9f4aa7ea6d94faca62cd88a28fd5234" "/tmp/a.wav" "out" sample_work).
  reflexivity.
Defined.

(** ** The shape of a signature *)

Lemma sha1_digest_length (msg : bytes) : List.length (SHA1.digest msg) = 20%nat.
Proof.
  unfold SHA1.digest.
  destruct (fold_left SHA1.compress (blocks (pad_message (Word32.to_be 8) msg)) SHA1.init)
    as [[[[a b] c] d] e].
  reflexivity.
Qed.

(** X21.  Whatever the credentials and the timestamp, the signature is
    28 characters long and its last character is the padding [=]: it is
    the base64 text of a 20-byte digest. *)
Theorem signature_is_28_characters (self : LFASRClient) (now : Z) :
  String.length (_generate_signa self) = 28%nat
  /\ String.get 27 (_generate_signa self) = Some "="%char
  /\ String.length (signa (update_timestamp now self)) = 28%nat.
Proof.
  assert (H : forall c : LFASRClient,
             String.length (_generate_signa c) = 28%nat
             /\ String.get 27 (_generate_signa c) = Some "="%char).
  { intros c. unfold _generate_signa, hmac_sha1.
    match goal with
    | |- context [b64encode (SHA1.digest ?m)] =>
        pose proof (sha1_digest_length m) as Hlen;
        destruct (SHA1.digest m) as [| b1 digest]
    end; [discriminate |].
    do 19 (destruct digest as [| ? digest]; [discriminate |]).
    destruct digest; [| discriminate]. split; reflexivity. }
  destruct (H self) as [Hl Hp]. split; [exact Hl | split; [exact Hp |]].
  apply (H (mkClient (appid self) (secret_key self) (max_retry self) (poll_interval self)
              (result_type self) (str_of_Z now) (signa self))).
Qed.
